(** * nutri-scan: the data model of [app/models.py]

    [app/models.py] is a list of SQLModel class statements: two string
    enumerations, four table classes and the request/response schemas.
    Each annotated attribute [x: T = Field(...)] is embedded as one field
    reader: the annotation gives the type check, [max_length] the length
    check, the absence of a default makes the field required, [default=None]
    and [default_factory=datetime.utcnow] say what a missing key becomes.
    A class is the record of its attributes together with [validate], the
    validation of an input mapping against the class ([model_validate]): it
    runs the field readers in declaration order and reports the errors of
    all fields together, each with the name of its field.

    models.py has no function of its own.  What the tables do on an insert
    and what a scan returns is code outside models.py; those operations are
    modelled from the specification and marked as such. *)

From Stdlib Require Import ZArith Ascii String List Lia.
From stdpp Require Import base option gmap strings list fin_maps.

Set Warnings "-register-all".

Open Scope string_scope.
Open Scope Z_scope.

(** ** Python values *)

(** A finite [decimal.Decimal] as its [as_tuple()]: sign, coefficient,
    exponent.  Two decimals that differ only in trailing zeros ([25.0] and
    [25]) are different records, so equality of records is equality with
    the precision preserved.  An attribute that passed validation holds a
    finite decimal; the other values of [decimal.Decimal] are the special
    ones below. *)
Record Decimal : Type := mkDecimal {
  dec_sign : bool;          (* true: negative *)
  dec_coefficient : N;
  dec_exponent : Z
}.

(** The values of [decimal.Decimal] that are not finite:
    [Decimal("Infinity")], [Decimal("-Infinity")], [Decimal("NaN")] and
    [Decimal("sNaN")]. *)
Inductive DecimalSpecial : Type :=
  | Infinity (negative : bool)
  | NaN
  | sNaN.

(** The numeric value is [(-1)^sign * coefficient * 10^exponent]; two
    decimals are compared after scaling both to the smaller exponent. *)
Definition Decimal_scaled (e : Z) (d : Decimal) : Z :=
  (if dec_sign d then -1 else 1) * Z.of_N (dec_coefficient d) * 10 ^ (dec_exponent d - e).

Definition Decimal_leb (a b : Decimal) : bool :=
  let e := Z.min (dec_exponent a) (dec_exponent b) in
  Decimal_scaled e a <=? Decimal_scaled e b.

Definition Decimal_ltb (a b : Decimal) : bool :=
  let e := Z.min (dec_exponent a) (dec_exponent b) in
  Decimal_scaled e a <? Decimal_scaled e b.

Definition Decimal_is_negative (d : Decimal) : bool :=
  dec_sign d && negb (N.eqb (dec_coefficient d) 0).

(** A naive [datetime] in UTC, as microseconds since the epoch. *)
Definition datetime : Type := Z.

(** What a caller can put under a key of the input mapping. *)
Inductive PyVal : Type :=
  | VNone
  | VBool (b : bool)
  | VInt (z : Z)
  | VStr (s : string)
  | VDecimal (d : Decimal)
  | VDecimalSpecial (s : DecimalSpecial)
  | VDatetime (t : datetime)
  | VList (l : list PyVal)
  | VDict (kv : list (string * PyVal)).

(** ** Enumerations (models.py 9-20) *)

Module NutriScore.
Inductive t : Type := A | B | C | D | E.

Definition value (n : t) : string :=
  match n with A => "A" | B => "B" | C => "C" | D => "D" | E => "E" end.

Definition members : list t := [A; B; C; D; E].
End NutriScore.

Module HealthAssessment.
Inductive t : Type := GOOD | MODERATE | NOT_RECOMMENDED.

Definition value (h : t) : string :=
  match h with
  | GOOD => "Good for health"
  | MODERATE => "Moderate"
  | NOT_RECOMMENDED => "Not recommended"
  end.

Definition members : list t := [GOOD; MODERATE; NOT_RECOMMENDED].
End HealthAssessment.

(** Both enumerations derive from [str]: a member is looked up by value. *)
Definition enum_of_value {T : Type} (value : T -> string) (members : list T)
    (s : string) : option T :=
  find (fun m => String.eqb (value m) s) members.

(** ** Validation errors *)

Inductive ErrorKind : Type :=
  | Missing                          (* required field absent *)
  | WrongType                        (* value not of the annotated type *)
  | StringTooLong (max_length : nat) (* longer than the declared max_length *)
  | EnumValue                        (* not the value of any member *)
  | NotFinite                        (* a decimal that is infinite or NaN *)
  | OutOfRange.                      (* ge / gt / le / lt bound violated *)

(** An error names the offending field. *)
Record FieldError : Type := mkFieldError { loc : string; kind : ErrorKind }.

Inductive Validated (T : Type) : Type :=
  | Ok (x : T)
  | Invalid (errors : list FieldError).
Arguments Ok {T} x.
Arguments Invalid {T} errors.

Definition errors_of {T : Type} (v : Validated T) : list FieldError :=
  match v with Ok _ => [] | Invalid es => es end.

Definition is_ok {T : Type} (v : Validated T) : bool :=
  match v with Ok _ => true | Invalid _ => false end.

(** Every field is checked; the errors of all fields are reported together. *)
Definition vap {U T : Type} (f : Validated (U -> T)) (x : Validated U) : Validated T :=
  match f, x with
  | Ok g, Ok a => Ok (g a)
  | Ok _, Invalid es => Invalid es
  | Invalid es, Ok _ => Invalid es
  | Invalid es1, Invalid es2 => Invalid (es1 ++ es2)%list
  end.

(** ** The clock *)

(** [datetime.utcnow()] reads the system clock.  The world holds the
    readings the clock will give, in order, and how many were taken. *)
Record World : Type := mkWorld {
  readings : nat -> datetime;
  taken : nat
}.

Definition now (w : World) : datetime := readings w (taken w).
Definition tick (w : World) : World :=
  {| readings := readings w; taken := S (taken w) |}.

(** A validation step may read the clock (for a default factory). *)
Definition M (T : Type) : Type := World -> Validated T * World.

Definition utcnow : World -> datetime * World := fun w => (now w, tick w).

Definition mret {T : Type} (x : T) : M T := fun w => (Ok x, w).

Definition map_ap {U T : Type} (f : M (U -> T)) (x : M U) : M T :=
  fun w =>
    let (rf, w1) := f w in
    let (rx, w2) := x w1 in
    (vap rf rx, w2).

Notation "f <*> x" := (map_ap f x) (at level 61, left associativity).

(** ** Field declarations *)

(** The keyword arguments of [Field(...)] that constrain the value.  The
    classes of models.py only ever pass [max_length]; the numeric bounds
    exist in the framework and are never set here. *)
Record FieldInfo : Type := mkFieldInfo {
  max_length : option nat;
  bound_ge : option Decimal;
  bound_gt : option Decimal;
  bound_le : option Decimal;
  bound_lt : option Decimal
}.

(** [Field()] with no constraint argument. *)
Definition Field : FieldInfo :=
  {| max_length := None; bound_ge := None; bound_gt := None;
     bound_le := None; bound_lt := None |}.

(** [Field(max_length=n)] *)
Definition Field_max_length (n : nat) : FieldInfo :=
  {| max_length := Some n; bound_ge := None; bound_gt := None;
     bound_le := None; bound_lt := None |}.

(** A type check turns a value into the typed attribute or says why not.
    A value passes when it has the annotated type; conversions from other
    types are not modelled. *)
Definition FieldCheck (T : Type) : Type := PyVal -> ErrorKind + T.

Definition check_str (fi : FieldInfo) : FieldCheck string := fun v =>
  match v with
  | VStr s =>
      match max_length fi with
      | Some n => if (n <? String.length s)%nat then inl (StringTooLong n) else inr s
      | None => inr s
      end
  | _ => inl WrongType
  end.

Definition check_int : FieldCheck Z := fun v =>
  match v with VInt z => inr z | _ => inl WrongType end.

Definition check_bool : FieldCheck bool := fun v =>
  match v with VBool b => inr b | _ => inl WrongType end.

Definition bound_ok (test : Decimal -> Decimal -> bool) (b : option Decimal)
    (d : Decimal) : bool :=
  match b with Some x => test x d | None => true end.

(** A decimal field takes a finite decimal within the declared bounds.
    The special values are decimals, and are refused as not finite before
    any bound is looked at. *)
Definition check_Decimal (fi : FieldInfo) : FieldCheck Decimal := fun v =>
  match v with
  | VDecimal d =>
      if bound_ok Decimal_leb (bound_ge fi) d
         && bound_ok Decimal_ltb (bound_gt fi) d
         && bound_ok (fun x y => Decimal_leb y x) (bound_le fi) d
         && bound_ok (fun x y => Decimal_ltb y x) (bound_lt fi) d
      then inr d else inl OutOfRange
  | VDecimalSpecial _ => inl NotFinite
  | _ => inl WrongType
  end.

Definition check_datetime : FieldCheck datetime := fun v =>
  match v with VDatetime t => inr t | _ => inl WrongType end.

(** An enumerated field takes the value of a member; a member itself is a
    [str] with that value.  Anything else is an enum error. *)
Definition check_enum {T : Type} (value : T -> string) (members : list T) : FieldCheck T :=
  fun v =>
    match v with
    | VStr s =>
        match enum_of_value value members s with
        | Some m => inr m
        | None => inl EnumValue
        end
    | _ => inl EnumValue
    end.

Definition check_NutriScore : FieldCheck NutriScore.t :=
  check_enum NutriScore.value NutriScore.members.

Definition check_HealthAssessment : FieldCheck HealthAssessment.t :=
  check_enum HealthAssessment.value HealthAssessment.members.

Fixpoint all_str (l : list PyVal) : option (list string) :=
  match l with
  | [] => Some []
  | VStr s :: r =>
      match all_str r with Some ss => Some (s :: ss) | None => None end
  | _ :: _ => None
  end.

(** [List[str]].  A list with elements that are not strings is reported
    here once, for the attribute; the framework reports each such element
    on its own, under the same attribute. *)
Definition check_list_str : FieldCheck (list string) := fun v =>
  match v with
  | VList l => match all_str l with Some ss => inr ss | None => inl WrongType end
  | _ => inl WrongType
  end.

(** [Dict[str, Any]]: the keys of a [VDict] are strings already. *)
Definition check_dict : FieldCheck (list (string * PyVal)) := fun v =>
  match v with VDict kv => inr kv | _ => inl WrongType end.

(** [Optional[T]]: [None] is a value of the field. *)
Definition Optional {T : Type} (c : FieldCheck T) : FieldCheck (option T) := fun v =>
  match v with
  | VNone => inr None
  | _ => match c v with inr x => inr (Some x) | inl e => inl e end
  end.

Definition at_field {T : Type} (name : string) (r : ErrorKind + T) : Validated T :=
  match r with
  | inr x => Ok x
  | inl e => Invalid [ {| loc := name; kind := e |} ]
  end.

(** [name: T = Field(...)] with no default: the key must be there. *)
Definition read_required {T : Type} (name : string) (c : FieldCheck T)
    (data : gmap string PyVal) : Validated T :=
  match data !! name with
  | Some v => at_field name (c v)
  | None => Invalid [ {| loc := name; kind := Missing |} ]
  end.

Definition required {T : Type} (name : string) (c : FieldCheck T)
    (data : gmap string PyVal) : M T :=
  fun w => (read_required name c data, w).

(** [name: T = Field(default=d, ...)]: a missing key becomes [d]. *)
Definition read_default {T : Type} (name : string) (c : FieldCheck T) (d : T)
    (data : gmap string PyVal) : Validated T :=
  match data !! name with
  | Some v => at_field name (c v)
  | None => Ok d
  end.

Definition with_default {T : Type} (name : string) (c : FieldCheck T) (d : T)
    (data : gmap string PyVal) : M T :=
  fun w => (read_default name c d data, w).

(** [name: T = Field(default_factory=f)]: a missing key becomes what [f()]
    returns when the object is built. *)
Definition with_default_factory {T : Type} (name : string) (c : FieldCheck T)
    (factory : World -> T * World) (data : gmap string PyVal) : M T :=
  fun w =>
    match data !! name with
    | Some v => (at_field name (c v), w)
    | None => let (x, w') := factory w in (Ok x, w')
    end.

(** ** Persistent models (models.py 24-119) *)

(** The [Relationship] attributes ([barcodes], [scan_history],
    [food_item]) are not columns: they are the rows found through the
    foreign key. *)

Module FoodItem.
Record t : Type := mk {
  id : option Z;
  name : string;
  brand : option string;
  description : option string;
  energy_kj : option Decimal;
  energy_kcal : option Decimal;
  fat : option Decimal;
  saturated_fat : option Decimal;
  carbohydrates : option Decimal;
  sugars : option Decimal;
  fiber : option Decimal;
  protein : option Decimal;
  salt : option Decimal;
  sodium : option Decimal;
  nutri_score : option NutriScore.t;
  health_assessment : option HealthAssessment.t;
  ingredients : option (list string);
  allergens : option (list string);
  categories : option (list string);
  created_at : datetime;
  updated_at : datetime
}.

Definition validate (data : gmap string PyVal) : M t :=
  mret mk
  <*> with_default "id" (Optional check_int) None data
  <*> required "name" (check_str (Field_max_length 255)) data
  <*> with_default "brand" (Optional (check_str (Field_max_length 255))) None data
  <*> with_default "description" (Optional (check_str (Field_max_length 1000))) None data
  <*> with_default "energy_kj" (Optional (check_Decimal Field)) None data
  <*> with_default "energy_kcal" (Optional (check_Decimal Field)) None data
  <*> with_default "fat" (Optional (check_Decimal Field)) None data
  <*> with_default "saturated_fat" (Optional (check_Decimal Field)) None data
  <*> with_default "carbohydrates" (Optional (check_Decimal Field)) None data
  <*> with_default "sugars" (Optional (check_Decimal Field)) None data
  <*> with_default "fiber" (Optional (check_Decimal Field)) None data
  <*> with_default "protein" (Optional (check_Decimal Field)) None data
  <*> with_default "salt" (Optional (check_Decimal Field)) None data
  <*> with_default "sodium" (Optional (check_Decimal Field)) None data
  <*> with_default "nutri_score" (Optional check_NutriScore) None data
  <*> with_default "health_assessment" (Optional check_HealthAssessment) None data
  <*> with_default "ingredients" (Optional check_list_str) None data
  <*> with_default "allergens" (Optional check_list_str) None data
  <*> with_default "categories" (Optional check_list_str) None data
  <*> with_default_factory "created_at" check_datetime utcnow data
  <*> with_default_factory "updated_at" check_datetime utcnow data.
End FoodItem.

Module Barcode.
Record t : Type := mk {
  id : option Z;
  code : string;
  barcode_type : string;
  food_item_id : Z;
  created_at : datetime
}.

Definition validate (data : gmap string PyVal) : M t :=
  mret mk
  <*> with_default "id" (Optional check_int) None data
  <*> required "code" (check_str (Field_max_length 50)) data
  <*> required "barcode_type" (check_str (Field_max_length 20)) data
  <*> required "food_item_id" check_int data
  <*> with_default_factory "created_at" check_datetime utcnow data.
End Barcode.

Module ScanHistory.
Record t : Type := mk {
  id : option Z;
  food_item_id : Z;
  barcode_scanned : string;
  scan_timestamp : datetime;
  user_agent : option string;
  ip_address : option string
}.

Definition validate (data : gmap string PyVal) : M t :=
  mret mk
  <*> with_default "id" (Optional check_int) None data
  <*> required "food_item_id" check_int data
  <*> required "barcode_scanned" (check_str (Field_max_length 50)) data
  <*> with_default_factory "scan_timestamp" check_datetime utcnow data
  <*> with_default "user_agent" (Optional (check_str (Field_max_length 500))) None data
  <*> with_default "ip_address" (Optional (check_str (Field_max_length 45))) None data.
End ScanHistory.

Module NutritionProfile.
Record t : Type := mk {
  id : option Z;
  name : string;
  description : option string;
  max_fat_per_100g : option Decimal;
  max_saturated_fat_per_100g : option Decimal;
  max_sugars_per_100g : option Decimal;
  max_salt_per_100g : option Decimal;
  min_fiber_per_100g : option Decimal;
  min_protein_per_100g : option Decimal;
  nutri_score_thresholds : option (list (string * PyVal));
  created_at : datetime;
  updated_at : datetime
}.

Definition validate (data : gmap string PyVal) : M t :=
  mret mk
  <*> with_default "id" (Optional check_int) None data
  <*> required "name" (check_str (Field_max_length 100)) data
  <*> with_default "description" (Optional (check_str (Field_max_length 500))) None data
  <*> with_default "max_fat_per_100g" (Optional (check_Decimal Field)) None data
  <*> with_default "max_saturated_fat_per_100g" (Optional (check_Decimal Field)) None data
  <*> with_default "max_sugars_per_100g" (Optional (check_Decimal Field)) None data
  <*> with_default "max_salt_per_100g" (Optional (check_Decimal Field)) None data
  <*> with_default "min_fiber_per_100g" (Optional (check_Decimal Field)) None data
  <*> with_default "min_protein_per_100g" (Optional (check_Decimal Field)) None data
  <*> with_default "nutri_score_thresholds" (Optional check_dict) None data
  <*> with_default_factory "created_at" check_datetime utcnow data
  <*> with_default_factory "updated_at" check_datetime utcnow data.
End NutritionProfile.

(** ** Non-persistent schemas (models.py 122-193) *)

Module FoodItemCreate.
Record t : Type := mk {
  name : string;
  brand : option string;
  description : option string;
  energy_kj : option Decimal;
  energy_kcal : option Decimal;
  fat : option Decimal;
  saturated_fat : option Decimal;
  carbohydrates : option Decimal;
  sugars : option Decimal;
  fiber : option Decimal;
  protein : option Decimal;
  salt : option Decimal;
  sodium : option Decimal;
  nutri_score : option NutriScore.t;
  health_assessment : option HealthAssessment.t;
  ingredients : option (list string);
  allergens : option (list string);
  categories : option (list string)
}.

Definition validate (data : gmap string PyVal) : M t :=
  mret mk
  <*> required "name" (check_str (Field_max_length 255)) data
  <*> with_default "brand" (Optional (check_str (Field_max_length 255))) None data
  <*> with_default "description" (Optional (check_str (Field_max_length 1000))) None data
  <*> with_default "energy_kj" (Optional (check_Decimal Field)) None data
  <*> with_default "energy_kcal" (Optional (check_Decimal Field)) None data
  <*> with_default "fat" (Optional (check_Decimal Field)) None data
  <*> with_default "saturated_fat" (Optional (check_Decimal Field)) None data
  <*> with_default "carbohydrates" (Optional (check_Decimal Field)) None data
  <*> with_default "sugars" (Optional (check_Decimal Field)) None data
  <*> with_default "fiber" (Optional (check_Decimal Field)) None data
  <*> with_default "protein" (Optional (check_Decimal Field)) None data
  <*> with_default "salt" (Optional (check_Decimal Field)) None data
  <*> with_default "sodium" (Optional (check_Decimal Field)) None data
  <*> with_default "nutri_score" (Optional check_NutriScore) None data
  <*> with_default "health_assessment" (Optional check_HealthAssessment) None data
  <*> with_default "ingredients" (Optional check_list_str) None data
  <*> with_default "allergens" (Optional check_list_str) None data
  <*> with_default "categories" (Optional check_list_str) None data.
End FoodItemCreate.

Module FoodItemUpdate.
Record t : Type := mk {
  name : option string;
  brand : option string;
  description : option string;
  energy_kj : option Decimal;
  energy_kcal : option Decimal;
  fat : option Decimal;
  saturated_fat : option Decimal;
  carbohydrates : option Decimal;
  sugars : option Decimal;
  fiber : option Decimal;
  protein : option Decimal;
  salt : option Decimal;
  sodium : option Decimal;
  nutri_score : option NutriScore.t;
  health_assessment : option HealthAssessment.t;
  ingredients : option (list string);
  allergens : option (list string);
  categories : option (list string)
}.

Definition validate (data : gmap string PyVal) : M t :=
  mret mk
  <*> with_default "name" (Optional (check_str (Field_max_length 255))) None data
  <*> with_default "brand" (Optional (check_str (Field_max_length 255))) None data
  <*> with_default "description" (Optional (check_str (Field_max_length 1000))) None data
  <*> with_default "energy_kj" (Optional (check_Decimal Field)) None data
  <*> with_default "energy_kcal" (Optional (check_Decimal Field)) None data
  <*> with_default "fat" (Optional (check_Decimal Field)) None data
  <*> with_default "saturated_fat" (Optional (check_Decimal Field)) None data
  <*> with_default "carbohydrates" (Optional (check_Decimal Field)) None data
  <*> with_default "sugars" (Optional (check_Decimal Field)) None data
  <*> with_default "fiber" (Optional (check_Decimal Field)) None data
  <*> with_default "protein" (Optional (check_Decimal Field)) None data
  <*> with_default "salt" (Optional (check_Decimal Field)) None data
  <*> with_default "sodium" (Optional (check_Decimal Field)) None data
  <*> with_default "nutri_score" (Optional check_NutriScore) None data
  <*> with_default "health_assessment" (Optional check_HealthAssessment) None data
  <*> with_default "ingredients" (Optional check_list_str) None data
  <*> with_default "allergens" (Optional check_list_str) None data
  <*> with_default "categories" (Optional check_list_str) None data.
End FoodItemUpdate.

Module BarcodeCreate.
Record t : Type := mk {
  code : string;
  barcode_type : string;
  food_item_id : Z
}.

Definition validate (data : gmap string PyVal) : M t :=
  mret mk
  <*> required "code" (check_str (Field_max_length 50)) data
  <*> required "barcode_type" (check_str (Field_max_length 20)) data
  <*> required "food_item_id" check_int data.
End BarcodeCreate.

Module ScanResult.
Record t : Type := mk {
  barcode : string;
  found : bool;
  food_item : option (list (string * PyVal));
  nutri_score : option NutriScore.t;
  health_assessment : option HealthAssessment.t;
  scan_timestamp : datetime
}.

Definition validate (data : gmap string PyVal) : M t :=
  mret mk
  <*> required "barcode" (check_str Field) data
  <*> required "found" check_bool data
  <*> with_default "food_item" (Optional check_dict) None data
  <*> with_default "nutri_score" (Optional check_NutriScore) None data
  <*> with_default "health_assessment" (Optional check_HealthAssessment) None data
  <*> with_default_factory "scan_timestamp" check_datetime utcnow data.
End ScanResult.

Module NutritionSummary.
Record t : Type := mk {
  energy_kcal : option Decimal;
  fat : option Decimal;
  saturated_fat : option Decimal;
  carbohydrates : option Decimal;
  sugars : option Decimal;
  fiber : option Decimal;
  protein : option Decimal;
  salt : option Decimal
}.

Definition validate (data : gmap string PyVal) : M t :=
  mret mk
  <*> with_default "energy_kcal" (Optional (check_Decimal Field)) None data
  <*> with_default "fat" (Optional (check_Decimal Field)) None data
  <*> with_default "saturated_fat" (Optional (check_Decimal Field)) None data
  <*> with_default "carbohydrates" (Optional (check_Decimal Field)) None data
  <*> with_default "sugars" (Optional (check_Decimal Field)) None data
  <*> with_default "fiber" (Optional (check_Decimal Field)) None data
  <*> with_default "protein" (Optional (check_Decimal Field)) None data
  <*> with_default "salt" (Optional (check_Decimal Field)) None data.
End NutritionSummary.

Module HealthScore.
Record t : Type := mk {
  nutri_score : NutriScore.t;
  health_assessment : HealthAssessment.t;
  score_factors : list (string * PyVal);
  recommendations : list string
}.

Definition validate (data : gmap string PyVal) : M t :=
  mret mk
  <*> required "nutri_score" check_NutriScore data
  <*> required "health_assessment" check_HealthAssessment data
  <*> required "score_factors" check_dict data
  <*> required "recommendations" check_list_str data.
End HealthScore.

(** ** The tables *)

(** models.py declares the tables and their constraints and contains no
    operation on them.  The declared constraints are:
    - [primary_key=True] on every [id];
    - [unique=True] on [Barcode.code] (line 70);
    - [foreign_key="food_items.id"] on [Barcode.food_item_id] (line 72)
      and on [ScanHistory.food_item_id] (line 87). *)

Inductive DbError : Type :=
  | UniquenessViolation (column : string)
  | ReferentialIntegrityError (column : string).

Record Store : Type := mkStore {
  food_items : gmap Z FoodItem.t;
  barcodes : gmap Z Barcode.t;
  scan_history : gmap Z ScanHistory.t
}.

Definition empty_store : Store :=
  {| food_items := ∅; barcodes := ∅; scan_history := ∅ |}.

Inductive Outcome : Type :=
  | Committed (id : Z)
  | Rejected (violations : list DbError).

(** Modelled from the spec: the key given to a row inserted with
    [id=None]; the storage layer that assigns it is not in models.py.
    It is one more than the largest key of the table. *)
Definition next_id {R : Type} (table : gmap Z R) : Z :=
  1 + map_fold (fun k _ acc => Z.max k acc) 0 table.

Definition row_id {R : Type} (table : gmap Z R) (id : option Z) : Z :=
  match id with Some k => k | None => next_id table end.

(** Modelled from the spec: the check of a [primary_key=True] column, done
    by the storage layer that is not in models.py. *)
Definition primary_key_violations {R : Type} (table : gmap Z R) (id : option Z)
    : list DbError :=
  match id with
  | Some k =>
      match table !! k with
      | Some _ => [UniquenessViolation "id"]
      | None => []
      end
  | None => []
  end.

Definition code_taken (code : string) (table : gmap Z Barcode.t) : bool :=
  existsb (fun kb => String.eqb (Barcode.code kb.2) code) (map_to_list table).

(** Modelled from the spec: the check of the [unique=True] column
    [Barcode.code] (section 7 (b): a duplicate code is a
    UniquenessViolation); the storage layer is not in models.py. *)
Definition unique_code_violations (code : string) (table : gmap Z Barcode.t)
    : list DbError :=
  if code_taken code table then [UniquenessViolation "code"] else [].

(** Modelled from the spec: the check of a [foreign_key="food_items.id"]
    column (section 7 (c): a reference to a food item that does not exist
    is a ReferentialIntegrityError, rejected before the write); the storage
    layer is not in models.py. *)
Definition foreign_key_violations (food_item_id : Z) (s : Store) : list DbError :=
  match food_items s !! food_item_id with
  | Some _ => []
  | None => [ReferentialIntegrityError "food_item_id"]
  end.

Definition FoodItem_with_id (k : Z) (f : FoodItem.t) : FoodItem.t :=
  FoodItem.mk (Some k) (FoodItem.name f) (FoodItem.brand f) (FoodItem.description f)
    (FoodItem.energy_kj f) (FoodItem.energy_kcal f) (FoodItem.fat f)
    (FoodItem.saturated_fat f) (FoodItem.carbohydrates f) (FoodItem.sugars f)
    (FoodItem.fiber f) (FoodItem.protein f) (FoodItem.salt f) (FoodItem.sodium f)
    (FoodItem.nutri_score f) (FoodItem.health_assessment f)
    (FoodItem.ingredients f) (FoodItem.allergens f) (FoodItem.categories f)
    (FoodItem.created_at f) (FoodItem.updated_at f).

Definition Barcode_with_id (k : Z) (b : Barcode.t) : Barcode.t :=
  Barcode.mk (Some k) (Barcode.code b) (Barcode.barcode_type b)
    (Barcode.food_item_id b) (Barcode.created_at b).

Definition ScanHistory_with_id (k : Z) (h : ScanHistory.t) : ScanHistory.t :=
  ScanHistory.mk (Some k) (ScanHistory.food_item_id h) (ScanHistory.barcode_scanned h)
    (ScanHistory.scan_timestamp h) (ScanHistory.user_agent h) (ScanHistory.ip_address h).

(** Modelled from the spec: inserting a row, an operation of the storage
    layer that is not in models.py.  Every declared constraint of the
    table is checked; a row that violates one is rejected with all its
    violations and nothing is written; otherwise the row is stored under
    its key. *)
Definition insert_food_item (f : FoodItem.t) (s : Store) : Outcome * Store :=
  match primary_key_violations (food_items s) (FoodItem.id f) with
  | [] =>
      let k := row_id (food_items s) (FoodItem.id f) in
      (Committed k,
       {| food_items := <[k := FoodItem_with_id k f]> (food_items s);
          barcodes := barcodes s;
          scan_history := scan_history s |})
  | violations => (Rejected violations, s)
  end.

(** Modelled from the spec: see [insert_food_item]. *)
Definition insert_barcode (b : Barcode.t) (s : Store) : Outcome * Store :=
  match (primary_key_violations (barcodes s) (Barcode.id b)
         ++ unique_code_violations (Barcode.code b) (barcodes s)
         ++ foreign_key_violations (Barcode.food_item_id b) s)%list with
  | [] =>
      let k := row_id (barcodes s) (Barcode.id b) in
      (Committed k,
       {| food_items := food_items s;
          barcodes := <[k := Barcode_with_id k b]> (barcodes s);
          scan_history := scan_history s |})
  | violations => (Rejected violations, s)
  end.

(** Modelled from the spec: see [insert_food_item]. *)
Definition insert_scan_history (h : ScanHistory.t) (s : Store) : Outcome * Store :=
  match (primary_key_violations (scan_history s) (ScanHistory.id h)
         ++ foreign_key_violations (ScanHistory.food_item_id h) s)%list with
  | [] =>
      let k := row_id (scan_history s) (ScanHistory.id h) in
      (Committed k,
       {| food_items := food_items s;
          barcodes := barcodes s;
          scan_history := <[k := ScanHistory_with_id k h]> (scan_history s) |})
  | violations => (Rejected violations, s)
  end.

(** The states the three inserts can build from the empty tables. *)
Inductive reachable : Store -> Prop :=
  | reachable_empty : reachable empty_store
  | reachable_food_item s f :
      reachable s -> reachable (insert_food_item f s).2
  | reachable_barcode s b :
      reachable s -> reachable (insert_barcode b s).2
  | reachable_scan_history s h :
      reachable s -> reachable (insert_scan_history h s).2.

(** The invariants of section 3. *)
Definition codes_unique (s : Store) : Prop :=
  forall k1 k2 b1 b2,
    barcodes s !! k1 = Some b1 -> barcodes s !! k2 = Some b2 ->
    Barcode.code b1 = Barcode.code b2 -> k1 = k2.

Definition references_exist (s : Store) : Prop :=
  (forall k b, barcodes s !! k = Some b ->
     is_Some (food_items s !! Barcode.food_item_id b)) /\
  (forall k h, scan_history s !! k = Some h ->
     is_Some (food_items s !! ScanHistory.food_item_id h)).

(** Modelled from the spec: persisting a FoodItemCreate (section 8,
    round trip); the write path is not in models.py.  The row is a
    FoodItem built from the attributes of the FoodItemCreate as keyword
    arguments: a table class takes its keyword arguments as they are and
    fills the attributes that were not given from their defaults, the two
    timestamps by two calls of [utcnow]. *)
Definition FoodItem_from_create (c : FoodItemCreate.t) : World -> FoodItem.t * World :=
  fun w =>
    let (t1, w1) := utcnow w in
    let (t2, w2) := utcnow w1 in
    (FoodItem.mk None (FoodItemCreate.name c) (FoodItemCreate.brand c)
       (FoodItemCreate.description c)
       (FoodItemCreate.energy_kj c) (FoodItemCreate.energy_kcal c)
       (FoodItemCreate.fat c) (FoodItemCreate.saturated_fat c)
       (FoodItemCreate.carbohydrates c) (FoodItemCreate.sugars c)
       (FoodItemCreate.fiber c) (FoodItemCreate.protein c)
       (FoodItemCreate.salt c) (FoodItemCreate.sodium c)
       (FoodItemCreate.nutri_score c) (FoodItemCreate.health_assessment c)
       (FoodItemCreate.ingredients c) (FoodItemCreate.allergens c)
       (FoodItemCreate.categories c) t1 t2, w2).

(** Modelled from the spec: see [FoodItem_from_create]. *)
Definition persist_food_item (c : FoodItemCreate.t) (s : Store) (w : World)
    : Outcome * Store * World :=
  let (f, w') := FoodItem_from_create c w in
  (insert_food_item f s, w').

(** Modelled from the spec: reading a FoodItem back by its key. *)
Definition read_food_item (k : Z) (s : Store) : option FoodItem.t :=
  food_items s !! k.

(** The attributes FoodItemCreate and FoodItem share. *)
Definition same_fields (c : FoodItemCreate.t) (f : FoodItem.t) : Prop :=
  FoodItem.name f = FoodItemCreate.name c /\
  FoodItem.brand f = FoodItemCreate.brand c /\
  FoodItem.description f = FoodItemCreate.description c /\
  FoodItem.energy_kj f = FoodItemCreate.energy_kj c /\
  FoodItem.energy_kcal f = FoodItemCreate.energy_kcal c /\
  FoodItem.fat f = FoodItemCreate.fat c /\
  FoodItem.saturated_fat f = FoodItemCreate.saturated_fat c /\
  FoodItem.carbohydrates f = FoodItemCreate.carbohydrates c /\
  FoodItem.sugars f = FoodItemCreate.sugars c /\
  FoodItem.fiber f = FoodItemCreate.fiber c /\
  FoodItem.protein f = FoodItemCreate.protein c /\
  FoodItem.salt f = FoodItemCreate.salt c /\
  FoodItem.sodium f = FoodItemCreate.sodium c /\
  FoodItem.nutri_score f = FoodItemCreate.nutri_score c /\
  FoodItem.health_assessment f = FoodItemCreate.health_assessment c /\
  FoodItem.ingredients f = FoodItemCreate.ingredients c /\
  FoodItem.allergens f = FoodItemCreate.allergens c /\
  FoodItem.categories f = FoodItemCreate.categories c.

(** Every attribute of a FoodItemCreate holds a value. *)
Definition all_populated (c : FoodItemCreate.t) : Prop :=
  is_Some (FoodItemCreate.brand c) /\
  is_Some (FoodItemCreate.description c) /\
  is_Some (FoodItemCreate.energy_kj c) /\
  is_Some (FoodItemCreate.energy_kcal c) /\
  is_Some (FoodItemCreate.fat c) /\
  is_Some (FoodItemCreate.saturated_fat c) /\
  is_Some (FoodItemCreate.carbohydrates c) /\
  is_Some (FoodItemCreate.sugars c) /\
  is_Some (FoodItemCreate.fiber c) /\
  is_Some (FoodItemCreate.protein c) /\
  is_Some (FoodItemCreate.salt c) /\
  is_Some (FoodItemCreate.sodium c) /\
  is_Some (FoodItemCreate.nutri_score c) /\
  is_Some (FoodItemCreate.health_assessment c) /\
  is_Some (FoodItemCreate.ingredients c) /\
  is_Some (FoodItemCreate.allergens c) /\
  is_Some (FoodItemCreate.categories c).

(** ** Scanning a barcode *)

Definition dump_optional {T : Type} (inj : T -> PyVal) (o : option T) : PyVal :=
  match o with Some x => inj x | None => VNone end.

Definition dump_list_str (l : list string) : PyVal := VList (map VStr l).

(** Modelled from the spec: the food-item snapshot embedded in a scan
    result (section 3, ScanResult); the code that builds it is not in
    models.py.  It is the mapping of the item's column attributes. *)
Definition FoodItem_dump (f : FoodItem.t) : list (string * PyVal) :=
  [ ("id", dump_optional VInt (FoodItem.id f));
    ("name", VStr (FoodItem.name f));
    ("brand", dump_optional VStr (FoodItem.brand f));
    ("description", dump_optional VStr (FoodItem.description f));
    ("energy_kj", dump_optional VDecimal (FoodItem.energy_kj f));
    ("energy_kcal", dump_optional VDecimal (FoodItem.energy_kcal f));
    ("fat", dump_optional VDecimal (FoodItem.fat f));
    ("saturated_fat", dump_optional VDecimal (FoodItem.saturated_fat f));
    ("carbohydrates", dump_optional VDecimal (FoodItem.carbohydrates f));
    ("sugars", dump_optional VDecimal (FoodItem.sugars f));
    ("fiber", dump_optional VDecimal (FoodItem.fiber f));
    ("protein", dump_optional VDecimal (FoodItem.protein f));
    ("salt", dump_optional VDecimal (FoodItem.salt f));
    ("sodium", dump_optional VDecimal (FoodItem.sodium f));
    ("nutri_score",
       dump_optional (fun n => VStr (NutriScore.value n)) (FoodItem.nutri_score f));
    ("health_assessment",
       dump_optional (fun h => VStr (HealthAssessment.value h))
         (FoodItem.health_assessment f));
    ("ingredients", dump_optional dump_list_str (FoodItem.ingredients f));
    ("allergens", dump_optional dump_list_str (FoodItem.allergens f));
    ("categories", dump_optional dump_list_str (FoodItem.categories f));
    ("created_at", VDatetime (FoodItem.created_at f));
    ("updated_at", VDatetime (FoodItem.updated_at f)) ].

(** Modelled from the spec: the lookup of a Barcode row by its code. *)
Definition find_barcode (code : string) (s : Store) : option Barcode.t :=
  snd <$> find (fun kb => String.eqb (Barcode.code kb.2) code)
               (map_to_list (barcodes s)).

(** Modelled from the spec: a scan (glossary: a barcode is looked up
    against the stored food items; section 8, last but one scenario); the
    lookup service is not in models.py.  The result is a ScanResult built
    from keyword arguments: on a hit the barcode, [found=True], the
    snapshot and the two scores of the item; on a miss the barcode and
    [found=False] only. *)
Definition scan (code : string) (s : Store) : M ScanResult.t :=
  match find_barcode code s ≫= (fun b => food_items s !! Barcode.food_item_id b) with
  | Some f =>
      ScanResult.validate
        {[ "barcode" := VStr code;
           "found" := VBool true;
           "food_item" := VDict (FoodItem_dump f);
           "nutri_score" :=
             dump_optional (fun n => VStr (NutriScore.value n)) (FoodItem.nutri_score f);
           "health_assessment" :=
             dump_optional (fun h => VStr (HealthAssessment.value h))
               (FoodItem.health_assessment f) ]}
  | None =>
      ScanResult.validate {[ "barcode" := VStr code; "found" := VBool false ]}
  end.

(** The errors reported for one field. *)
Definition errors_at (name : string) (es : list FieldError) : list FieldError :=
  List.filter (fun e => String.eqb (loc e) name) es.

(** [n] copies of a character, for the length boundaries. *)
Fixpoint str_repeat (c : Ascii.ascii) (n : nat) : string :=
  match n with
  | O => EmptyString
  | S m => String c (str_repeat c m)
  end.

(** ** Vocabulary of the properties *)

(** The error for a [name] longer than the 255 characters declared. *)
Definition name_too_long : FieldError :=
  {| loc := "name"; kind := StringTooLong 255 |}.

Definition NutriScore_values : list string := ["A"; "B"; "C"; "D"; "E"].

Definition HealthAssessment_values : list string :=
  ["Good for health"; "Moderate"; "Not recommended"].

(** What the two optional enumerated fields take: [None] or the value of a
    member. *)
Definition enum_input_ok (values : list string) (v : PyVal) : Prop :=
  v = VNone \/ exists s, v = VStr s /\ In s values.

(** No type check ever answers "missing": only an absent key is missing. *)
Definition never_missing {T : Type} (c : FieldCheck T) : Prop :=
  forall v, c v <> inl Missing.

Definition FoodItemCreate_only_name (s : string) : FoodItemCreate.t :=
  FoodItemCreate.mk s None None None None None None None None None None None
    None None None None None None.

Definition FoodItemUpdate_nothing : FoodItemUpdate.t :=
  FoodItemUpdate.mk None None None None None None None None None None None None
    None None None None None None.

(** The ten nutrient attributes of FoodItem and FoodItemCreate
    (models.py 35-44, 131-140). *)
Definition nutrient_fields : list string :=
  ["energy_kj"; "energy_kcal"; "fat"; "saturated_fat"; "carbohydrates";
   "sugars"; "fiber"; "protein"; "salt"; "sodium"].

(** The six threshold attributes of NutritionProfile (models.py 107-112). *)
Definition threshold_fields : list string :=
  ["max_fat_per_100g"; "max_saturated_fat_per_100g"; "max_sugars_per_100g";
   "max_salt_per_100g"; "min_fiber_per_100g"; "min_protein_per_100g"].

(** The values that are a [decimal.Decimal], finite or not. *)
Definition is_Decimal_value (v : PyVal) : Prop :=
  match v with
  | VDecimal _ | VDecimalSpecial _ => True
  | _ => False
  end.

(** The error for a decimal that is infinite or NaN. *)
Definition not_finite (name : string) : FieldError :=
  {| loc := name; kind := NotFinite |}.

(** The world in which [updated_at] is filled: [created_at] comes first and
    has read the clock if it was not given. *)
Definition after_created_at (data : gmap string PyVal) (w : World) : World :=
  match data !! "created_at" with Some _ => w | None => tick w end.

(** What is built from an input that gives a name and nothing else. *)
Definition FoodItem_only_name (name : string) (created updated : datetime)
    : FoodItem.t :=
  FoodItem.mk None name None None None None None None None None None None None
    None None None None None None created updated.

Definition NutritionProfile_only_name (name : string) (created updated : datetime)
    : NutritionProfile.t :=
  NutritionProfile.mk None name None None None None None None None None
    created updated.

(** A clock that shows [t] whenever it is read. *)
Definition clock_at (t : datetime) : World :=
  {| readings := fun _ => t; taken := 0 |}.

(** A clock that counts its readings: 0, 1, 2, ... *)
Definition counting_clock : World :=
  {| readings := fun n => Z.of_nat n; taken := 0 |}.

(** Sample rows: a food item and its barcode, then a barcode and a scan
    that reference the food item 7, which is never stored. *)
Definition muesli : FoodItem.t :=
  FoodItem.mk None "Muesli" None None None None None None None None None None
    None None None None None None None 5 6.

Definition muesli_barcode : Barcode.t := Barcode.mk None "4006040000013" "EAN13" 1 7.

Definition dangling_barcode : Barcode.t := Barcode.mk None "0012345678905" "UPC" 7 8.

Definition dangling_scan : ScanHistory.t :=
  ScanHistory.mk None 7 "0012345678905" 9 None None.

Definition store_with_muesli : Store := (insert_food_item muesli empty_store).2.

Definition store_with_barcode : Store :=
  (insert_barcode muesli_barcode store_with_muesli).2.

(** Minus five grams: sign set, coefficient 50, exponent -1. *)
Definition minus_five : Decimal := mkDecimal true 50 (-1).

(** [Decimal("25.0")] and [Decimal("25")]: equal numbers, different
    precision. *)
Definition sugars_25_0 : Decimal := mkDecimal false 250 (-1).
Definition sugars_25 : Decimal := mkDecimal false 25 0.

(** A FoodItemCreate with every attribute given. *)
Definition cola : FoodItemCreate.t :=
  FoodItemCreate.mk "Cola" (Some "Acme") (Some "Soft drink")
    (Some (mkDecimal false 180 0)) (Some (mkDecimal false 42 0))
    (Some (mkDecimal false 0 0)) (Some (mkDecimal false 0 0))
    (Some (mkDecimal false 106 (-1))) (Some sugars_25_0)
    (Some (mkDecimal false 0 0)) (Some (mkDecimal false 0 0))
    (Some (mkDecimal false 1 (-2))) (Some (mkDecimal false 4 (-3)))
    (Some NutriScore.E) (Some HealthAssessment.NOT_RECOMMENDED)
    (Some ["water"; "sugar"]) (Some []) (Some ["beverages"]).

(** ** The declarations as tables *)

(** The attribute names of each class, in declaration order. *)
Definition FoodItem_fields : list string :=
  ["id"; "name"; "brand"; "description"; "energy_kj"; "energy_kcal"; "fat";
   "saturated_fat"; "carbohydrates"; "sugars"; "fiber"; "protein"; "salt";
   "sodium"; "nutri_score"; "health_assessment"; "ingredients"; "allergens";
   "categories"; "created_at"; "updated_at"].

Definition Barcode_fields : list string :=
  ["id"; "code"; "barcode_type"; "food_item_id"; "created_at"].

Definition ScanHistory_fields : list string :=
  ["id"; "food_item_id"; "barcode_scanned"; "scan_timestamp"; "user_agent";
   "ip_address"].

Definition NutritionProfile_fields : list string :=
  ["id"; "name"; "description"; "max_fat_per_100g";
   "max_saturated_fat_per_100g"; "max_sugars_per_100g"; "max_salt_per_100g";
   "min_fiber_per_100g"; "min_protein_per_100g"; "nutri_score_thresholds";
   "created_at"; "updated_at"].

(** FoodItemCreate and FoodItemUpdate declare the same attributes. *)
Definition FoodItemCreate_fields : list string :=
  ["name"; "brand"; "description"; "energy_kj"; "energy_kcal"; "fat";
   "saturated_fat"; "carbohydrates"; "sugars"; "fiber"; "protein"; "salt";
   "sodium"; "nutri_score"; "health_assessment"; "ingredients"; "allergens";
   "categories"].

Definition BarcodeCreate_fields : list string :=
  ["code"; "barcode_type"; "food_item_id"].

Definition ScanResult_fields : list string :=
  ["barcode"; "found"; "food_item"; "nutri_score"; "health_assessment";
   "scan_timestamp"].

Definition NutritionSummary_fields : list string :=
  ["energy_kcal"; "fat"; "saturated_fat"; "carbohydrates"; "sugars"; "fiber";
   "protein"; "salt"].

Definition HealthScore_fields : list string :=
  ["nutri_score"; "health_assessment"; "score_factors"; "recommendations"].

(** The attributes declared without a default. *)
Definition Barcode_required : list string := ["code"; "barcode_type"; "food_item_id"].
Definition ScanHistory_required : list string := ["food_item_id"; "barcode_scanned"].
Definition ScanResult_required : list string := ["barcode"; "found"].

(** The [max_length] of the string attributes. *)
Definition FoodItem_max_lengths : list (string * nat) :=
  [("name", 255%nat); ("brand", 255%nat); ("description", 1000%nat)].

Definition Barcode_max_lengths : list (string * nat) :=
  [("code", 50%nat); ("barcode_type", 20%nat)].

Definition ScanHistory_max_lengths : list (string * nat) :=
  [("barcode_scanned", 50%nat); ("user_agent", 500%nat); ("ip_address", 45%nat)].

Definition NutritionProfile_max_lengths : list (string * nat) :=
  [("name", 100%nat); ("description", 500%nat)].

(** The attributes filled by [datetime.utcnow] when they are not given. *)
Definition FoodItem_timestamps : list string := ["created_at"; "updated_at"].
Definition Barcode_timestamps : list string := ["created_at"].
Definition ScanHistory_timestamps : list string := ["scan_timestamp"].
Definition ScanResult_timestamps : list string := ["scan_timestamp"].

(** What validation reports for a string [s] given to a field limited to
    [n] characters. *)
Definition length_errors (name : string) (n : nat) (s : string) : list FieldError :=
  if (n <? String.length s)%nat
  then [ {| loc := name; kind := StringTooLong n |} ]
  else [].

(** The keys of [names] that the input does not give. *)
Definition missing (data : gmap string PyVal) (names : list string) : nat :=
  length (List.filter (fun k => match data !! k with None => true | Some _ => false end)
            names).

(** The world after [n] readings of the clock. *)
Definition ticks (n : nat) (w : World) : World := Nat.iter n tick w.

(** A FoodItemCreate seen as an update that sets every attribute. *)
Definition FoodItemUpdate_of_create (c : FoodItemCreate.t) : FoodItemUpdate.t :=
  FoodItemUpdate.mk (Some (FoodItemCreate.name c)) (FoodItemCreate.brand c)
    (FoodItemCreate.description c)
    (FoodItemCreate.energy_kj c) (FoodItemCreate.energy_kcal c)
    (FoodItemCreate.fat c) (FoodItemCreate.saturated_fat c)
    (FoodItemCreate.carbohydrates c) (FoodItemCreate.sugars c)
    (FoodItemCreate.fiber c) (FoodItemCreate.protein c)
    (FoodItemCreate.salt c) (FoodItemCreate.sodium c)
    (FoodItemCreate.nutri_score c) (FoodItemCreate.health_assessment c)
    (FoodItemCreate.ingredients c) (FoodItemCreate.allergens c)
    (FoodItemCreate.categories c).

(** The Barcode row of a BarcodeCreate, created at [t]. *)
Definition Barcode_of_create (c : BarcodeCreate.t) (t : datetime) : Barcode.t :=
  Barcode.mk None (BarcodeCreate.code c) (BarcodeCreate.barcode_type c)
    (BarcodeCreate.food_item_id c) t.

Definition optional_within (n : nat) (o : option string) : Prop :=
  match o with Some s => (String.length s <= n)%nat | None => True end.

(** The length limits of FoodItemCreate, on a value. *)
Definition FoodItemCreate_within_limits (c : FoodItemCreate.t) : Prop :=
  (String.length (FoodItemCreate.name c) <= 255)%nat /\
  optional_within 255 (FoodItemCreate.brand c) /\
  optional_within 1000 (FoodItemCreate.description c).

(** The mapping of the attributes of a FoodItemCreate ([model_dump]). *)
Definition FoodItemCreate_dump (c : FoodItemCreate.t) : gmap string PyVal :=
  list_to_map
    [ ("name", VStr (FoodItemCreate.name c));
      ("brand", dump_optional VStr (FoodItemCreate.brand c));
      ("description", dump_optional VStr (FoodItemCreate.description c));
      ("energy_kj", dump_optional VDecimal (FoodItemCreate.energy_kj c));
      ("energy_kcal", dump_optional VDecimal (FoodItemCreate.energy_kcal c));
      ("fat", dump_optional VDecimal (FoodItemCreate.fat c));
      ("saturated_fat", dump_optional VDecimal (FoodItemCreate.saturated_fat c));
      ("carbohydrates", dump_optional VDecimal (FoodItemCreate.carbohydrates c));
      ("sugars", dump_optional VDecimal (FoodItemCreate.sugars c));
      ("fiber", dump_optional VDecimal (FoodItemCreate.fiber c));
      ("protein", dump_optional VDecimal (FoodItemCreate.protein c));
      ("salt", dump_optional VDecimal (FoodItemCreate.salt c));
      ("sodium", dump_optional VDecimal (FoodItemCreate.sodium c));
      ("nutri_score",
         dump_optional (fun n => VStr (NutriScore.value n))
           (FoodItemCreate.nutri_score c));
      ("health_assessment",
         dump_optional (fun h => VStr (HealthAssessment.value h))
           (FoodItemCreate.health_assessment c));
      ("ingredients", dump_optional dump_list_str (FoodItemCreate.ingredients c));
      ("allergens", dump_optional dump_list_str (FoodItemCreate.allergens c));
      ("categories", dump_optional dump_list_str (FoodItemCreate.categories c)) ].

(** [names] goes through [fields] in order: it is [fields] with entries left
    out or repeated.  Of the errors of a run it says that every error names
    an attribute of the class and that the errors follow the order of the
    declarations, those of one attribute together. *)
Inductive in_declaration_order : list string -> list string -> Prop :=
  | order_done fields : in_declaration_order [] fields
  | order_same name names fields :
      in_declaration_order names (name :: fields) ->
      in_declaration_order (name :: names) (name :: fields)
  | order_next name names fields :
      in_declaration_order names fields ->
      in_declaration_order names (name :: fields).

(** What validation reports for a value [v] given to an optional
    enumerated field: nothing when [v] is [None] or the value of a member,
    an enum error otherwise. *)
Definition optional_enum_report (name : string) (values : list string) (v : PyVal)
    (es : list FieldError) : Prop :=
  (enum_input_ok values v -> es = []) /\
  (~ enum_input_ok values v -> es = [ {| loc := name; kind := EnumValue |} ]).

(** The same for a required enumerated field, where [None] is no value. *)
Definition required_enum_report (name : string) (values : list string) (v : PyVal)
    (es : list FieldError) : Prop :=
  ((exists s, v = VStr s /\ In s values) -> es = []) /\
  (~ (exists s, v = VStr s /\ In s values) ->
   es = [ {| loc := name; kind := EnumValue |} ]).
(** * Properties *)

(** ** The error-collecting applicative *)

Section Applicative.
Context {U T : Type}.
Implicit Types (f : Validated (U -> T)) (x : Validated U).

Lemma errors_of_vap f x :
  errors_of (vap f x) = (errors_of f ++ errors_of x)%list.
Proof. destruct f, x; simpl; auto using app_nil_r. Qed.

Lemma is_ok_vap f x : is_ok (vap f x) = is_ok f && is_ok x.
Proof. by destruct f, x. Qed.

Lemma vap_Ok_inv f x r :
  vap f x = Ok r -> exists g a, f = Ok g /\ x = Ok a /\ r = g a.
Proof.
  destruct f as [g|], x as [a|]; simpl; intros H; try discriminate.
  injection H as <-. by exists g, a.
Qed.
End Applicative.

Lemma errors_at_app name es1 es2 :
  errors_at name (es1 ++ es2) = (errors_at name es1 ++ errors_at name es2)%list.
Proof. apply List.filter_app. Qed.

Lemma errors_at_elem name es e :
  In e (errors_at name es) <-> In e es /\ loc e = name.
Proof.
  unfold errors_at. rewrite List.filter_In. by rewrite String.eqb_eq.
Qed.

(** ** Field readers *)

Section Readers.
Context {T : Type}.
Implicit Types (c : FieldCheck T) (data : gmap string PyVal).

Lemma errors_of_at_field name (r : ErrorKind + T) :
  errors_of (at_field name r) =
  match r with inl e => [ {| loc := name; kind := e |} ] | inr _ => [] end.
Proof. by destruct r. Qed.

Lemma errors_at_required_other name other c data :
  String.eqb name other = false ->
  errors_at other (errors_of (read_required name c data)) = [].
Proof.
  intros Hne. unfold read_required.
  destruct (data !! name) as [v|]; simpl.
  - destruct (c v); simpl; [by rewrite Hne | done].
  - by rewrite Hne.
Qed.

Lemma errors_at_default_other name other c d data :
  String.eqb name other = false ->
  errors_at other (errors_of (read_default name c d data)) = [].
Proof.
  intros Hne. unfold read_default.
  destruct (data !! name) as [v|]; simpl; [|done].
  destruct (c v); simpl; [by rewrite Hne | done].
Qed.

Lemma errors_at_required_same name c data :
  errors_at name (errors_of (read_required name c data)) =
  errors_of (read_required name c data).
Proof.
  unfold read_required.
  destruct (data !! name) as [v|]; simpl.
  - destruct (c v); simpl; [by rewrite String.eqb_refl | done].
  - by rewrite String.eqb_refl.
Qed.

Lemma errors_at_default_same name c d data :
  errors_at name (errors_of (read_default name c d data)) =
  errors_of (read_default name c d data).
Proof.
  unfold read_default.
  destruct (data !! name) as [v|]; simpl; [|done].
  destruct (c v); simpl; [by rewrite String.eqb_refl | done].
Qed.

Lemma read_required_insert_ne name other c data v :
  other <> name ->
  read_required name c (<[other := v]> data) = read_required name c data.
Proof. intros Hne. unfold read_required. by rewrite lookup_insert_ne. Qed.

Lemma read_default_insert_ne name other c d data v :
  other <> name ->
  read_default name c d (<[other := v]> data) = read_default name c d data.
Proof. intros Hne. unfold read_default. by rewrite lookup_insert_ne. Qed.

Lemma read_default_insert_eq name c d data v :
  read_default name c d (<[name := v]> data) = at_field name (c v).
Proof. unfold read_default. by rewrite lookup_insert_eq. Qed.

Lemma read_default_None name c d data :
  data !! name = None -> read_default name c d data = Ok d.
Proof. unfold read_default. by intros ->. Qed.

Lemma read_default_Some name c d data v :
  data !! name = Some v -> read_default name c d data = at_field name (c v).
Proof. unfold read_default. by intros ->. Qed.

Lemma read_required_None name c data :
  data !! name = None ->
  read_required name c data = Invalid [ {| loc := name; kind := Missing |} ].
Proof. unfold read_required. by intros ->. Qed.

Lemma read_required_Some name c data v :
  data !! name = Some v -> read_required name c data = at_field name (c v).
Proof. unfold read_required. by intros ->. Qed.
End Readers.

(** The default factory is called exactly when the key is missing, and
    its product is what the attribute becomes. *)
Lemma with_default_factory_run name (c : FieldCheck datetime) data w :
  with_default_factory name c utcnow data w =
  (read_default name c (now w) data,
   match data !! name with Some _ => w | None => tick w end).
Proof.
  unfold with_default_factory, read_default, utcnow.
  by destruct (data !! name).
Qed.

(** Unfolds a validator run at a world into the pair of the collected
    result and the world after it. *)
Ltac run_validate :=
  unfold map_ap, mret, required, with_default;
  cbn beta iota;
  repeat (rewrite with_default_factory_run; cbn beta iota).

(** Keeps, of the errors of a run, those reported for one field. *)
Ltac errors_at_field :=
  rewrite !errors_of_vap, !errors_at_app;
  repeat
    (match goal with
     | |- context [errors_at ?n (errors_of (read_default ?m ?c ?d ?data))] =>
         first [ rewrite (errors_at_default_other m n c d data) by reflexivity
               | rewrite (errors_at_default_same m c d data) ]
     | |- context [errors_at ?n (errors_of (read_required ?m ?c ?data))] =>
         first [ rewrite (errors_at_required_other m n c data) by reflexivity
               | rewrite (errors_at_required_same m c data) ]
     end);
  cbn [errors_of errors_at List.filter app];
  rewrite ?app_nil_r.

(** Splits an accepted run into what every field reader returned. *)
Ltac invert_run H :=
  let Hok := fresh "Hok" in
  apply pair_equal_spec in H as [H ?];
  pose proof (f_equal is_ok H) as Hok;
  rewrite !is_ok_vap in Hok; cbn [is_ok] in Hok;
  repeat (let Hr := fresh "Hr" in apply andb_prop in Hok as [Hok Hr]);
  clear Hok;
  repeat
    (match goal with
     | Hr : is_ok ?r = true |- _ =>
         let Ha := fresh "Ha" in
         destruct r eqn:Ha; [clear Hr | discriminate Hr]
     end);
  cbn [vap] in H; injection H as <-.

(** ** Length boundary of [name] *)

Lemma check_str_255 (s : string) :
  check_str (Field_max_length 255) (VStr s) =
  if (255 <? String.length s)%nat then inl (StringTooLong 255) else inr s.
Proof. reflexivity. Qed.

Lemma length_str_repeat c n : String.length (str_repeat c n) = n.
Proof. induction n; simpl; congruence. Qed.

(** C5.  Where the input gives a string for [name], FoodItemCreate and
    FoodItem report an error for the field [name] exactly when the string is
    longer than 255 characters, and the error says so; an input that gives
    nothing but the name is accepted exactly when the name has at most 255
    characters, so 255 characters pass and 256 do not. *)
Theorem name_length_boundary (data : gmap string PyVal) (s : string) (w : World) :
  data !! "name" = Some (VStr s) ->
  errors_at "name" (errors_of (FoodItemCreate.validate data w).1) =
    (if (255 <? String.length s)%nat then [name_too_long] else []) /\
  errors_at "name" (errors_of (FoodItem.validate data w).1) =
    (if (255 <? String.length s)%nat then [name_too_long] else []) /\
  is_ok (FoodItemCreate.validate {[ "name" := VStr s ]} w).1 =
    negb (255 <? String.length s)%nat /\
  is_ok (FoodItem.validate {[ "name" := VStr s ]} w).1 =
    negb (255 <? String.length s)%nat.
Proof.
  intros Hname. split_and!.
  - unfold FoodItemCreate.validate. run_validate. cbn [fst].
    errors_at_field. rewrite (read_required_Some _ _ _ _ Hname).
    rewrite check_str_255. by destruct (255 <? String.length s)%nat.
  - unfold FoodItem.validate. run_validate. cbn [fst].
    errors_at_field. rewrite (read_required_Some _ _ _ _ Hname).
    rewrite check_str_255. by destruct (255 <? String.length s)%nat.
  - unfold FoodItemCreate.validate. run_validate. cbn [fst].
    rewrite !is_ok_vap.
    rewrite !read_default_None by reflexivity.
    rewrite (read_required_Some _ _ _ (VStr s)) by reflexivity.
    rewrite check_str_255. by destruct (255 <? String.length s)%nat.
  - unfold FoodItem.validate. run_validate. cbn [fst].
    rewrite !is_ok_vap.
    rewrite !read_default_None by reflexivity.
    rewrite (read_required_Some _ _ _ (VStr s)) by reflexivity.
    rewrite check_str_255. by destruct (255 <? String.length s)%nat.
Qed.

Lemma name_length_boundary_witness :
  ({[ "name" := VStr (str_repeat "x" 256) ]} : gmap string PyVal) !! "name" =
    Some (VStr (str_repeat "x" 256)) /\
  errors_at "name"
    (errors_of (FoodItemCreate.validate
                  {[ "name" := VStr (str_repeat "x" 256) ]} counting_clock).1) =
    [name_too_long] /\
  is_ok (FoodItemCreate.validate
           {[ "name" := VStr (str_repeat "x" 255) ]} counting_clock).1 = true /\
  is_ok (FoodItemCreate.validate
           {[ "name" := VStr (str_repeat "x" 256) ]} counting_clock).1 = false.
Proof.
  pose proof (name_length_boundary
                {[ "name" := VStr (str_repeat "x" 256) ]} (str_repeat "x" 256)
                counting_clock eq_refl) as (H1 & _ & H2 & _).
  pose proof (name_length_boundary
                {[ "name" := VStr (str_repeat "x" 255) ]} (str_repeat "x" 255)
                counting_clock eq_refl) as (_ & _ & H3 & _).
  rewrite length_str_repeat in H1, H2, H3.
  split; [reflexivity|]. split; [exact H1|]. split; [exact H3 | exact H2].
Defined.

(** ** Enumerated fields *)

Lemma NutriScore_value_in (n : NutriScore.t) :
  In (NutriScore.value n) NutriScore_values.
Proof. destruct n; simpl; tauto. Qed.

Lemma HealthAssessment_value_in (h : HealthAssessment.t) :
  In (HealthAssessment.value h) HealthAssessment_values.
Proof. destruct h; simpl; tauto. Qed.

Lemma enum_of_value_NutriScore (s : string) :
  match enum_of_value NutriScore.value NutriScore.members s with
  | Some n => NutriScore.value n = s
  | None => ~ In s NutriScore_values
  end.
Proof.
  unfold enum_of_value, NutriScore.members, NutriScore_values.
  cbn [find NutriScore.value].
  repeat (match goal with
          | |- context [String.eqb ?a s] =>
              destruct (String.eqb_spec a s) as [?|?]; [done|]
          end).
  simpl. intuition congruence.
Qed.

Lemma enum_of_value_HealthAssessment (s : string) :
  match enum_of_value HealthAssessment.value HealthAssessment.members s with
  | Some h => HealthAssessment.value h = s
  | None => ~ In s HealthAssessment_values
  end.
Proof.
  unfold enum_of_value, HealthAssessment.members, HealthAssessment_values.
  cbn [find HealthAssessment.value].
  repeat (match goal with
          | |- context [String.eqb ?a s] =>
              destruct (String.eqb_spec a s) as [?|?]; [done|]
          end).
  simpl. intuition congruence.
Qed.

Lemma check_NutriScore_spec (v : PyVal) :
  match Optional check_NutriScore v with
  | inr None => v = VNone
  | inr (Some n) => v = VStr (NutriScore.value n)
  | inl e => e = EnumValue /\ ~ enum_input_ok NutriScore_values v
  end.
Proof.
  unfold enum_input_ok, Optional, check_NutriScore, check_enum.
  destruct v as [| | |s| | | | |]; try done;
    try (split; [done | intros [?|(? & ? & ?)]; discriminate]).
  pose proof (enum_of_value_NutriScore s) as H.
  destruct (enum_of_value _ _ s); [by subst|].
  split; [done|]. intros [?|(s' & [= <-] & ?)]; [discriminate | done].
Qed.

Lemma check_HealthAssessment_spec (v : PyVal) :
  match Optional check_HealthAssessment v with
  | inr None => v = VNone
  | inr (Some h) => v = VStr (HealthAssessment.value h)
  | inl e => e = EnumValue /\ ~ enum_input_ok HealthAssessment_values v
  end.
Proof.
  unfold enum_input_ok, Optional, check_HealthAssessment, check_enum.
  destruct v as [| | |s| | | | |]; try done;
    try (split; [done | intros [?|(? & ? & ?)]; discriminate]).
  pose proof (enum_of_value_HealthAssessment s) as H.
  destruct (enum_of_value _ _ s); [by subst|].
  split; [done|]. intros [?|(s' & [= <-] & ?)]; [discriminate | done].
Qed.

Lemma enum_input_ok_dec_NutriScore (v : PyVal) :
  enum_input_ok NutriScore_values v ->
  exists o, Optional check_NutriScore v = inr o.
Proof.
  intros Hok. pose proof (check_NutriScore_spec v) as H.
  destruct (Optional check_NutriScore v) as [e|o]; [|by exists o].
  by destruct H as [_ H].
Qed.

Lemma enum_input_ok_dec_HealthAssessment (v : PyVal) :
  enum_input_ok HealthAssessment_values v ->
  exists o, Optional check_HealthAssessment v = inr o.
Proof.
  intros Hok. pose proof (check_HealthAssessment_spec v) as H.
  destruct (Optional check_HealthAssessment v) as [e|o]; [|by exists o].
  by destruct H as [_ H].
Qed.

(** C3.  The [nutri_score] of a FoodItem, when present, is one of A, B, C,
    D, E and its [health_assessment], when present, one of the three
    assessments; a validated FoodItem carries the member whose value the
    input gave; and validation reports an enum error for the field exactly
    when the input gives something else than [None] or one of these values. *)
Theorem enum_fields_closed :
  (forall (f : FoodItem.t) n,
     FoodItem.nutri_score f = Some n -> In (NutriScore.value n) NutriScore_values) /\
  (forall (f : FoodItem.t) h,
     FoodItem.health_assessment f = Some h ->
     In (HealthAssessment.value h) HealthAssessment_values) /\
  (forall data w f w' s,
     FoodItem.validate data w = (Ok f, w') ->
     (data !! "nutri_score" = Some (VStr s) ->
      exists n, FoodItem.nutri_score f = Some n /\ NutriScore.value n = s) /\
     (data !! "health_assessment" = Some (VStr s) ->
      exists h, FoodItem.health_assessment f = Some h /\ HealthAssessment.value h = s)) /\
  (forall data w v,
     data !! "nutri_score" = Some v ->
     (enum_input_ok NutriScore_values v ->
      errors_at "nutri_score" (errors_of (FoodItem.validate data w).1) = []) /\
     (~ enum_input_ok NutriScore_values v ->
      errors_at "nutri_score" (errors_of (FoodItem.validate data w).1) =
        [ {| loc := "nutri_score"; kind := EnumValue |} ])) /\
  (forall data w v,
     data !! "health_assessment" = Some v ->
     (enum_input_ok HealthAssessment_values v ->
      errors_at "health_assessment" (errors_of (FoodItem.validate data w).1) = []) /\
     (~ enum_input_ok HealthAssessment_values v ->
      errors_at "health_assessment" (errors_of (FoodItem.validate data w).1) =
        [ {| loc := "health_assessment"; kind := EnumValue |} ])).
Proof.
  split; [intros; apply NutriScore_value_in|].
  split; [intros; apply HealthAssessment_value_in|].
  split; [|split].
  - intros data w f w' s Hrun.
    unfold FoodItem.validate in Hrun. revert Hrun. run_validate. intros Hrun.
    invert_run Hrun. cbn [FoodItem.nutri_score FoodItem.health_assessment].
    split; intros Hin.
    + match goal with
      | H : read_default "nutri_score" _ _ _ = Ok ?a |- _ =>
          rewrite (read_default_Some _ _ _ _ _ Hin) in H;
          pose proof (check_NutriScore_spec (VStr s)) as Hs;
          destruct (Optional check_NutriScore (VStr s)) as [?|[n|]];
          simpl in H; [discriminate | | discriminate];
          injection H as <-; injection Hs as ->; by exists n
      end.
    + match goal with
      | H : read_default "health_assessment" _ _ _ = Ok ?a |- _ =>
          rewrite (read_default_Some _ _ _ _ _ Hin) in H;
          pose proof (check_HealthAssessment_spec (VStr s)) as Hs;
          destruct (Optional check_HealthAssessment (VStr s)) as [?|[n|]];
          simpl in H; [discriminate | | discriminate];
          injection H as <-; injection Hs as ->; by exists n
      end.
  - intros data w v Hin.
    assert (errors_at "nutri_score" (errors_of (FoodItem.validate data w).1) =
            errors_of (at_field "nutri_score" (Optional check_NutriScore v))) as ->.
    { unfold FoodItem.validate. run_validate. cbn [fst].
      errors_at_field. by rewrite (read_default_Some _ _ _ _ _ Hin). }
    pose proof (check_NutriScore_spec v) as Hs.
    split; intros Hok.
    + by destruct (enum_input_ok_dec_NutriScore v Hok) as [o ->].
    + destruct (Optional check_NutriScore v) as [e|[n|]]; simpl.
      * by destruct Hs as [-> _].
      * destruct Hok. right. exists (NutriScore.value n).
        split; [done | apply NutriScore_value_in].
      * destruct Hok. by left.
  - intros data w v Hin.
    assert (errors_at "health_assessment" (errors_of (FoodItem.validate data w).1) =
            errors_of (at_field "health_assessment" (Optional check_HealthAssessment v)))
      as ->.
    { unfold FoodItem.validate. run_validate. cbn [fst].
      errors_at_field. by rewrite (read_default_Some _ _ _ _ _ Hin). }
    pose proof (check_HealthAssessment_spec v) as Hs.
    split; intros Hok.
    + by destruct (enum_input_ok_dec_HealthAssessment v Hok) as [o ->].
    + destruct (Optional check_HealthAssessment v) as [e|[n|]]; simpl.
      * by destruct Hs as [-> _].
      * destruct Hok. right. exists (HealthAssessment.value n).
        split; [done | apply HealthAssessment_value_in].
      * destruct Hok. by left.
Qed.

Lemma enum_fields_closed_witness :
  ({[ "name" := VStr "Muesli"; "nutri_score" := VStr "F" ]} : gmap string PyVal)
    !! "nutri_score" = Some (VStr "F") /\
  ~ enum_input_ok NutriScore_values (VStr "F") /\
  errors_at "nutri_score"
    (errors_of (FoodItem.validate
                  {[ "name" := VStr "Muesli"; "nutri_score" := VStr "F" ]}
                  counting_clock).1) =
    [ {| loc := "nutri_score"; kind := EnumValue |} ].
Proof.
  assert (~ enum_input_ok NutriScore_values (VStr "F")) as Hbad.
  { intros [H|(s & [= <-] & Hin)]; [discriminate|].
    simpl in Hin. intuition discriminate. }
  split; [reflexivity|]. split; [exact Hbad|].
  destruct enum_fields_closed as (_ & _ & _ & Hscore & _).
  edestruct (Hscore {[ "name" := VStr "Muesli"; "nutri_score" := VStr "F" ]}
               counting_clock (VStr "F")) as [_ Hreject]; [reflexivity|].
  exact (Hreject Hbad).
Defined.

(** ** Required and optional fields *)

Lemma never_missing_str fi : never_missing (check_str fi).
Proof.
  intros v. unfold check_str. destruct v; try discriminate.
  destruct (max_length fi); [|discriminate]. by case (_ <? _)%nat.
Qed.

Lemma never_missing_int : never_missing check_int.
Proof. intros v. by destruct v. Qed.

Lemma never_missing_bool : never_missing check_bool.
Proof. intros v. by destruct v. Qed.

Lemma never_missing_Decimal fi : never_missing (check_Decimal fi).
Proof.
  intros v. unfold check_Decimal. destruct v; try discriminate.
  by case (_ && _).
Qed.

Lemma never_missing_datetime : never_missing check_datetime.
Proof. intros v. by destruct v. Qed.

Lemma never_missing_enum {T : Type} (value : T -> string) members :
  never_missing (check_enum value members).
Proof.
  intros v. unfold check_enum. destruct v; try discriminate.
  by destruct (enum_of_value _ _ _).
Qed.

Lemma never_missing_list_str : never_missing check_list_str.
Proof.
  intros v. unfold check_list_str. destruct v; try discriminate.
  by destruct (all_str _).
Qed.

Lemma never_missing_dict : never_missing check_dict.
Proof. intros v. by destruct v. Qed.

Lemma never_missing_Optional {T : Type} (c : FieldCheck T) :
  never_missing c -> never_missing (Optional c).
Proof.
  intros Hc v. unfold Optional.
  destruct v; try discriminate;
    match goal with |- context [c ?x] =>
      specialize (Hc x); destruct (c x); congruence end.
Qed.

Lemma never_missing_NutriScore : never_missing check_NutriScore.
Proof. apply never_missing_enum. Qed.

Lemma never_missing_HealthAssessment : never_missing check_HealthAssessment.
Proof. apply never_missing_enum. Qed.

Create HintDb checks.
#[local] Hint Resolve never_missing_str never_missing_int never_missing_bool
  never_missing_Decimal never_missing_datetime never_missing_NutriScore
  never_missing_HealthAssessment never_missing_list_str never_missing_dict
  never_missing_Optional : checks.

Lemma default_never_missing {T : Type} name (c : FieldCheck T) d data e :
  never_missing c ->
  In e (errors_of (read_default name c d data)) -> kind e <> Missing.
Proof.
  intros Hc Hin. unfold read_default in Hin.
  destruct (data !! name) as [v|]; simpl in Hin; [|done].
  specialize (Hc v). destruct (c v) as [k|]; simpl in Hin; [|done].
  destruct Hin as [<-|[]]. simpl. congruence.
Qed.

Lemma required_error_loc {T : Type} name (c : FieldCheck T) data e :
  In e (errors_of (read_required name c data)) -> loc e = name.
Proof.
  unfold read_required.
  destruct (data !! name) as [v|]; simpl.
  - destruct (c v); simpl; [|done]. by intros [<-|[]].
  - by intros [<-|[]].
Qed.

(** Splits the membership in the errors of a run by field. *)
Ltac split_errors H :=
  rewrite !errors_of_vap in H; cbn [errors_of app] in H;
  repeat (apply in_app_or in H as [H|H]).

(** C6.  FoodItemCreate: an input without [name] is rejected with the
    error "missing" for [name]; no other field is ever reported missing, and
    an input that gives only a name (of at most 255 characters) is accepted
    with every other attribute [None].  FoodItemUpdate: no field is ever
    reported missing and the empty input is accepted. *)
Theorem create_requires_name_only :
  (forall data w,
     data !! "name" = None ->
     In {| loc := "name"; kind := Missing |}
        (errors_of (FoodItemCreate.validate data w).1) /\
     is_ok (FoodItemCreate.validate data w).1 = false) /\
  (forall data w e,
     In e (errors_of (FoodItemCreate.validate data w).1) ->
     kind e = Missing -> loc e = "name") /\
  (forall s w,
     (String.length s <= 255)%nat ->
     FoodItemCreate.validate {[ "name" := VStr s ]} w =
       (Ok (FoodItemCreate_only_name s), w)) /\
  (forall data w e,
     In e (errors_of (FoodItemUpdate.validate data w).1) -> kind e <> Missing) /\
  (forall w, FoodItemUpdate.validate ∅ w = (Ok FoodItemUpdate_nothing, w)).
Proof.
  split_and!.
  - intros data w H. split.
    + eapply proj1, (errors_at_elem "name").
      unfold FoodItemCreate.validate. run_validate. cbn [fst].
      errors_at_field. rewrite (read_required_None _ _ _ H). by left.
    + unfold FoodItemCreate.validate. run_validate. cbn [fst].
      rewrite !is_ok_vap, (read_required_None _ _ _ H).
      cbn [is_ok]. by rewrite ?andb_false_r.
  - intros data w e Hin Hkind. revert Hin.
    unfold FoodItemCreate.validate. run_validate. cbn [fst]. intros Hin.
    split_errors Hin;
      try (by exfalso; eapply default_never_missing; [|exact Hin|exact Hkind];
              auto with checks).
    by apply required_error_loc in Hin.
  - intros s w Hlen.
    unfold FoodItemCreate.validate. run_validate.
    rewrite !read_default_None by reflexivity.
    rewrite (read_required_Some _ _ _ (VStr s)) by reflexivity.
    rewrite check_str_255.
    destruct (Nat.ltb_spec 255 (String.length s)); [lia | reflexivity].
  - intros data w e Hin Hkind. revert Hin.
    unfold FoodItemUpdate.validate. run_validate. cbn [fst]. intros Hin.
    split_errors Hin;
      try (by exfalso; eapply default_never_missing; [|exact Hin|exact Hkind];
              auto with checks).
  - intros w. unfold FoodItemUpdate.validate. run_validate.
    by rewrite !read_default_None by reflexivity.
Qed.

Lemma create_requires_name_only_witness :
  ({[ "brand" := VStr "Acme" ]} : gmap string PyVal) !! "name" = None /\
  In {| loc := "name"; kind := Missing |}
     (errors_of (FoodItemCreate.validate {[ "brand" := VStr "Acme" ]}
                   counting_clock).1) /\
  FoodItemCreate.validate {[ "name" := VStr "Muesli" ]} counting_clock =
    (Ok (FoodItemCreate_only_name "Muesli"), counting_clock).
Proof.
  destruct create_requires_name_only as (Hmissing & _ & Honly & _).
  split; [reflexivity|]. split.
  - apply Hmissing. reflexivity.
  - apply Honly. simpl. lia.
Defined.

(** ** Nutrient quantities and thresholds *)

(** A declared bound would reject: with [ge=0] minus five is out of range. *)
Example check_Decimal_bound_rejects :
  check_Decimal
    {| max_length := None; bound_ge := Some (mkDecimal false 0 0);
       bound_gt := None; bound_le := None; bound_lt := None |}
    (VDecimal minus_five) = inl OutOfRange.
Proof. reflexivity. Qed.

(** With no bound declared, every decimal passes the check. *)
Lemma check_Decimal_unbounded (d : Decimal) :
  Optional (check_Decimal Field) (VDecimal d) = inr (Some d).
Proof. reflexivity. Qed.

(** What setting one key of the input does to the reader of a field: the
    reader of another field does not see it, the reader of that field
    checks the new value. *)
Section SetKey.
Context {T : Type}.
Implicit Types (c : FieldCheck T) (data : gmap string PyVal).

Lemma is_ok_default_insert name key c d d' data v :
  is_ok (read_default name c d data) = true ->
  (key = name -> is_ok (at_field name (c v)) = true) ->
  is_ok (read_default name c d' (<[key := v]> data)) = true.
Proof.
  intros Hold Hnew. unfold read_default in *.
  destruct (decide (key = name)) as [->|Hne].
  - rewrite lookup_insert_eq. by apply Hnew.
  - rewrite lookup_insert_ne by done. by destruct (data !! name).
Qed.

Lemma is_ok_required_insert name key c data v :
  is_ok (read_required name c data) = true ->
  (key = name -> is_ok (at_field name (c v)) = true) ->
  is_ok (read_required name c (<[key := v]> data)) = true.
Proof.
  intros Hold Hnew. unfold read_required in *.
  destruct (decide (key = name)) as [->|Hne].
  - rewrite lookup_insert_eq. by apply Hnew.
  - by rewrite lookup_insert_ne.
Qed.

Lemma errors_at_default_insert name key c d data v :
  (key = name -> is_ok (at_field name (c v)) = true) ->
  errors_at key (errors_of (read_default name c d (<[key := v]> data))) = [].
Proof.
  intros Hnew. destruct (decide (key = name)) as [->|Hne].
  - rewrite read_default_insert_eq.
    specialize (Hnew eq_refl). by destruct (at_field name (c v)).
  - apply errors_at_default_other. by apply String.eqb_neq.
Qed.

Lemma errors_at_required_insert name key c data v :
  (key = name -> is_ok (at_field name (c v)) = true) ->
  errors_at key (errors_of (read_required name c (<[key := v]> data))) = [].
Proof.
  intros Hnew. destruct (decide (key = name)) as [->|Hne].
  - unfold read_required. rewrite lookup_insert_eq.
    specialize (Hnew eq_refl). by destruct (at_field name (c v)).
  - apply errors_at_required_other. by apply String.eqb_neq.
Qed.
End SetKey.

(** The key is a decimal field, where every decimal passes, or it is not
    one of the listed fields at all. *)
Ltac decimal_or_other Hname :=
  intros ->;
  first [ reflexivity
        | exfalso; cbn [In nutrient_fields threshold_fields] in Hname;
          intuition discriminate ].

Ltac no_error_for_key Hname :=
  run_validate; cbn [fst];
  rewrite !errors_of_vap, !errors_at_app;
  rewrite ?errors_at_default_insert by decimal_or_other Hname;
  rewrite ?errors_at_required_insert by decimal_or_other Hname;
  reflexivity.

Ltac keeps_valid Hname Hok :=
  run_validate; cbn [fst]; revert Hok; run_validate; cbn [fst];
  rewrite !is_ok_vap; intros Hok;
  repeat (apply andb_prop in Hok as [Hok ?]);
  repeat (apply andb_true_intro; split);
  first [ reflexivity
        | eapply is_ok_default_insert; [eassumption | decimal_or_other Hname]
        | eapply is_ok_required_insert; [eassumption | decimal_or_other Hname] ].

Lemma FoodItem_nutrient_no_error d name data w :
  In name nutrient_fields ->
  errors_at name
    (errors_of (FoodItem.validate (<[name := VDecimal d]> data) w).1) = [].
Proof. intros Hname. unfold FoodItem.validate. no_error_for_key Hname. Qed.

Lemma FoodItemCreate_nutrient_no_error d name data w :
  In name nutrient_fields ->
  errors_at name
    (errors_of (FoodItemCreate.validate (<[name := VDecimal d]> data) w).1) = [].
Proof. intros Hname. unfold FoodItemCreate.validate. no_error_for_key Hname. Qed.

Lemma NutritionProfile_threshold_no_error d name data w :
  In name threshold_fields ->
  errors_at name
    (errors_of (NutritionProfile.validate (<[name := VDecimal d]> data) w).1) = [].
Proof. intros Hname. unfold NutritionProfile.validate. no_error_for_key Hname. Qed.

Lemma FoodItem_nutrient_keeps_valid d name data w :
  In name nutrient_fields ->
  is_ok (FoodItem.validate data w).1 = true ->
  is_ok (FoodItem.validate (<[name := VDecimal d]> data) w).1 = true.
Proof. intros Hname Hok. unfold FoodItem.validate in *. keeps_valid Hname Hok. Qed.

Lemma FoodItemCreate_nutrient_keeps_valid d name data w :
  In name nutrient_fields ->
  is_ok (FoodItemCreate.validate data w).1 = true ->
  is_ok (FoodItemCreate.validate (<[name := VDecimal d]> data) w).1 = true.
Proof.
  intros Hname Hok. unfold FoodItemCreate.validate in *. keeps_valid Hname Hok.
Qed.

Lemma NutritionProfile_threshold_keeps_valid d name data w :
  In name threshold_fields ->
  is_ok (NutritionProfile.validate data w).1 = true ->
  is_ok (NutritionProfile.validate (<[name := VDecimal d]> data) w).1 = true.
Proof.
  intros Hname Hok. unfold NutritionProfile.validate in *. keeps_valid Hname Hok.
Qed.

(** The errors for a key after it was set, reader by reader. *)
Lemma errors_at_default_set {T : Type} name key (c : FieldCheck T) d data v :
  errors_at key (errors_of (read_default name c d (<[key := v]> data))) =
  if String.eqb name key then errors_of (at_field name (c v)) else [].
Proof.
  destruct (String.eqb_spec name key) as [<-|Hne].
  - by rewrite errors_at_default_same, read_default_insert_eq.
  - apply errors_at_default_other. by apply String.eqb_neq.
Qed.

Lemma errors_at_required_set {T : Type} name key (c : FieldCheck T) data v :
  errors_at key (errors_of (read_required name c (<[key := v]> data))) =
  if String.eqb name key then errors_of (at_field name (c v)) else [].
Proof.
  destruct (String.eqb_spec name key) as [<-|Hne].
  - rewrite errors_at_required_same. unfold read_required.
    by rewrite lookup_insert_eq.
  - apply errors_at_required_other. by apply String.eqb_neq.
Qed.

(** The errors of a run for a key that was set to a special decimal. *)
Ltac special_refused Hname :=
  run_validate; cbn [fst];
  rewrite !errors_of_vap, !errors_at_app;
  rewrite ?errors_at_default_set, ?errors_at_required_set;
  cbn [In nutrient_fields threshold_fields] in Hname;
  repeat (destruct Hname as [<-|Hname]); [..|destruct Hname];
  reflexivity.

Lemma FoodItem_nutrient_not_finite s name data w :
  In name nutrient_fields ->
  errors_at name
    (errors_of (FoodItem.validate (<[name := VDecimalSpecial s]> data) w).1) =
    [not_finite name].
Proof. intros Hname. unfold FoodItem.validate. special_refused Hname. Qed.

Lemma FoodItemCreate_nutrient_not_finite s name data w :
  In name nutrient_fields ->
  errors_at name
    (errors_of (FoodItemCreate.validate (<[name := VDecimalSpecial s]> data) w).1) =
    [not_finite name].
Proof. intros Hname. unfold FoodItemCreate.validate. special_refused Hname. Qed.

Lemma NutritionProfile_threshold_not_finite s name data w :
  In name threshold_fields ->
  errors_at name
    (errors_of (NutritionProfile.validate (<[name := VDecimalSpecial s]> data) w).1) =
    [not_finite name].
Proof. intros Hname. unfold NutritionProfile.validate. special_refused Hname. Qed.

(** C8, as amended.  Whatever finite decimal is put in a nutrient field of
    a FoodItem or a FoodItemCreate, or in a threshold field of a
    NutritionProfile, negative ones included, the field is accepted: no
    error is reported for it, and an input that was accepted stays accepted.
    The decimals that are not finite (the infinities and NaN) are the ones
    refused, with the error "not finite" for the field. *)
Theorem nutrients_unconstrained (d : Decimal) (s : DecimalSpecial) (name : string)
    (data : gmap string PyVal) (w : World) :
  (In name nutrient_fields ->
     errors_at name
       (errors_of (FoodItem.validate (<[name := VDecimal d]> data) w).1) = [] /\
     errors_at name
       (errors_of (FoodItemCreate.validate (<[name := VDecimal d]> data) w).1) = [] /\
     (is_ok (FoodItem.validate data w).1 = true ->
      is_ok (FoodItem.validate (<[name := VDecimal d]> data) w).1 = true) /\
     (is_ok (FoodItemCreate.validate data w).1 = true ->
      is_ok (FoodItemCreate.validate (<[name := VDecimal d]> data) w).1 = true) /\
     errors_at name
       (errors_of (FoodItem.validate (<[name := VDecimalSpecial s]> data) w).1) =
       [not_finite name] /\
     errors_at name
       (errors_of (FoodItemCreate.validate (<[name := VDecimalSpecial s]> data) w).1) =
       [not_finite name]) /\
  (In name threshold_fields ->
     errors_at name
       (errors_of (NutritionProfile.validate (<[name := VDecimal d]> data) w).1) = [] /\
     (is_ok (NutritionProfile.validate data w).1 = true ->
      is_ok (NutritionProfile.validate (<[name := VDecimal d]> data) w).1 = true) /\
     errors_at name
       (errors_of (NutritionProfile.validate (<[name := VDecimalSpecial s]> data) w).1) =
       [not_finite name]).
Proof.
  split; intros Hname; split_and!;
    auto using FoodItem_nutrient_no_error, FoodItemCreate_nutrient_no_error,
      NutritionProfile_threshold_no_error, FoodItem_nutrient_keeps_valid,
      FoodItemCreate_nutrient_keeps_valid, NutritionProfile_threshold_keeps_valid,
      FoodItem_nutrient_not_finite, FoodItemCreate_nutrient_not_finite,
      NutritionProfile_threshold_not_finite.
Qed.

Lemma nutrients_unconstrained_witness :
  Decimal_is_negative minus_five = true /\
  In "sugars" nutrient_fields /\
  is_ok (FoodItemCreate.validate
           (<["sugars" := VDecimal minus_five]> {[ "name" := VStr "Cola" ]})
           counting_clock).1 = true /\
  In "max_sugars_per_100g" threshold_fields /\
  is_ok (NutritionProfile.validate
           (<["max_sugars_per_100g" := VDecimal minus_five]>
              {[ "name" := VStr "General Adult" ]})
           counting_clock).1 = true /\
  errors_at "sugars"
    (errors_of (FoodItemCreate.validate
                  (<["sugars" := VDecimalSpecial NaN]> {[ "name" := VStr "Cola" ]})
                  counting_clock).1) = [not_finite "sugars"].
Proof.
  assert (In "sugars" nutrient_fields) as Hn by (simpl; tauto).
  assert (In "max_sugars_per_100g" threshold_fields) as Ht by (simpl; tauto).
  split; [reflexivity|]. split; [exact Hn|].
  split; [|split; [exact Ht|split]].
  - destruct (nutrients_unconstrained minus_five NaN "sugars"
                {[ "name" := VStr "Cola" ]} counting_clock) as [H _].
    destruct (H Hn) as (_ & _ & _ & Hkeep & _). apply Hkeep. reflexivity.
  - destruct (nutrients_unconstrained minus_five NaN "max_sugars_per_100g"
                {[ "name" := VStr "General Adult" ]} counting_clock) as [_ H].
    destruct (H Ht) as (_ & Hkeep & _). apply Hkeep. reflexivity.
  - destruct (nutrients_unconstrained minus_five NaN "sugars"
                {[ "name" := VStr "Cola" ]} counting_clock) as [H _].
    destruct (H Hn) as (_ & _ & _ & _ & _ & Hrefused). exact Hrefused.
Defined.

(** C8, as stated, fails: minus infinity is a decimal, and put in [sugars]
    of an accepted FoodItemCreate input it makes the input rejected, with
    the error "not finite" for [sugars]. *)
Lemma every_decimal_accepted_counterexample :
  is_Decimal_value (VDecimalSpecial (Infinity true)) /\
  In "sugars" nutrient_fields /\
  is_ok (FoodItemCreate.validate {[ "name" := VStr "Cola" ]} counting_clock).1 = true /\
  is_ok (FoodItemCreate.validate
           (<["sugars" := VDecimalSpecial (Infinity true)]>
              {[ "name" := VStr "Cola" ]}) counting_clock).1 = false /\
  errors_of (FoodItemCreate.validate
               (<["sugars" := VDecimalSpecial (Infinity true)]>
                  {[ "name" := VStr "Cola" ]}) counting_clock).1 =
    [not_finite "sugars"] /\
  is_ok (FoodItem.validate
           (<["sugars" := VDecimalSpecial (Infinity true)]>
              {[ "name" := VStr "Cola" ]}) counting_clock).1 = false /\
  is_ok (NutritionProfile.validate
           (<["max_sugars_per_100g" := VDecimalSpecial (Infinity true)]>
              {[ "name" := VStr "General Adult" ]}) counting_clock).1 = false.
Proof.
  split; [exact I|]. split; [simpl; tauto|]. by split_and!.
Qed.

(** ** Timestamps *)

Lemma FoodItem_created_at_default data w f w' :
  FoodItem.validate data w = (Ok f, w') ->
  data !! "created_at" = None -> FoodItem.created_at f = now w.
Proof.
  intros Hrun Hmissing. unfold FoodItem.validate in Hrun.
  revert Hrun; run_validate; intros Hrun; invert_run Hrun.
  cbn [FoodItem.created_at].
  match goal with
  | H : read_default "created_at" _ _ _ = Ok _ |- _ =>
      rewrite (read_default_None _ _ _ _ Hmissing) in H; by injection H as <-
  end.
Qed.

Lemma FoodItem_updated_at_default data w f w' :
  FoodItem.validate data w = (Ok f, w') ->
  data !! "updated_at" = None ->
  FoodItem.updated_at f = now (after_created_at data w).
Proof.
  intros Hrun Hmissing. unfold FoodItem.validate in Hrun.
  revert Hrun; run_validate; intros Hrun; invert_run Hrun.
  cbn [FoodItem.updated_at].
  match goal with
  | H : read_default "updated_at" _ _ _ = Ok _ |- _ =>
      rewrite (read_default_None _ _ _ _ Hmissing) in H; by injection H as <-
  end.
Qed.

Lemma Barcode_created_at_default data w b w' :
  Barcode.validate data w = (Ok b, w') ->
  data !! "created_at" = None -> Barcode.created_at b = now w.
Proof.
  intros Hrun Hmissing. unfold Barcode.validate in Hrun.
  revert Hrun; run_validate; intros Hrun; invert_run Hrun.
  cbn [Barcode.created_at].
  match goal with
  | H : read_default "created_at" _ _ _ = Ok _ |- _ =>
      rewrite (read_default_None _ _ _ _ Hmissing) in H; by injection H as <-
  end.
Qed.

Lemma ScanHistory_scan_timestamp_default data w h w' :
  ScanHistory.validate data w = (Ok h, w') ->
  data !! "scan_timestamp" = None -> ScanHistory.scan_timestamp h = now w.
Proof.
  intros Hrun Hmissing. unfold ScanHistory.validate in Hrun.
  revert Hrun; run_validate; intros Hrun; invert_run Hrun.
  cbn [ScanHistory.scan_timestamp].
  match goal with
  | H : read_default "scan_timestamp" _ _ _ = Ok _ |- _ =>
      rewrite (read_default_None _ _ _ _ Hmissing) in H; by injection H as <-
  end.
Qed.

Lemma NutritionProfile_created_at_default data w p w' :
  NutritionProfile.validate data w = (Ok p, w') ->
  data !! "created_at" = None -> NutritionProfile.created_at p = now w.
Proof.
  intros Hrun Hmissing. unfold NutritionProfile.validate in Hrun.
  revert Hrun; run_validate; intros Hrun; invert_run Hrun.
  cbn [NutritionProfile.created_at].
  match goal with
  | H : read_default "created_at" _ _ _ = Ok _ |- _ =>
      rewrite (read_default_None _ _ _ _ Hmissing) in H; by injection H as <-
  end.
Qed.

Lemma NutritionProfile_updated_at_default data w p w' :
  NutritionProfile.validate data w = (Ok p, w') ->
  data !! "updated_at" = None ->
  NutritionProfile.updated_at p = now (after_created_at data w).
Proof.
  intros Hrun Hmissing. unfold NutritionProfile.validate in Hrun.
  revert Hrun; run_validate; intros Hrun; invert_run Hrun.
  cbn [NutritionProfile.updated_at].
  match goal with
  | H : read_default "updated_at" _ _ _ = Ok _ |- _ =>
      rewrite (read_default_None _ _ _ _ Hmissing) in H; by injection H as <-
  end.
Qed.

(** An accepted run has a result. *)
Lemma is_ok_result {T : Type} (v : Validated T) :
  is_ok v = true -> exists x, v = Ok x.
Proof. destruct v as [x|es]; [by exists x | discriminate]. Qed.

(** What dropping one key of the input does to the reader of a field: a
    field with a default falls back on it, the reader of another field does
    not see it. *)
Section DropKey.
Context {T : Type}.
Implicit Types (c : FieldCheck T) (data : gmap string PyVal).

Lemma is_ok_default_delete name key c d d' data :
  is_ok (read_default name c d data) = true ->
  is_ok (read_default name c d' (delete key data)) = true.
Proof.
  intros Hold. unfold read_default in *.
  destruct (decide (key = name)) as [->|Hne].
  - by rewrite lookup_delete_eq.
  - rewrite lookup_delete_ne by done. by destruct (data !! name).
Qed.

Lemma is_ok_required_delete name key c data :
  key <> name ->
  is_ok (read_required name c data) = true ->
  is_ok (read_required name c (delete key data)) = true.
Proof.
  intros Hne Hold. unfold read_required in *. by rewrite lookup_delete_ne.
Qed.
End DropKey.

(** An accepted input stays accepted when a timestamp is dropped from it. *)
Ltac valid_without_timestamp Hok :=
  run_validate; cbn [fst]; revert Hok; run_validate; cbn [fst];
  rewrite !is_ok_vap; intros Hok;
  repeat (apply andb_prop in Hok as [Hok ?]);
  repeat (apply andb_true_intro; split);
  first [ reflexivity
        | eapply is_ok_default_delete; eassumption
        | eapply is_ok_required_delete; [discriminate | eassumption] ].

Lemma FoodItem_valid_without key data w :
  key = "created_at" \/ key = "updated_at" ->
  is_ok (FoodItem.validate data w).1 = true ->
  is_ok (FoodItem.validate (delete key data) w).1 = true.
Proof.
  intros [->| ->] Hok; unfold FoodItem.validate in *; valid_without_timestamp Hok.
Qed.

Lemma Barcode_valid_without data w :
  is_ok (Barcode.validate data w).1 = true ->
  is_ok (Barcode.validate (delete "created_at" data) w).1 = true.
Proof. intros Hok. unfold Barcode.validate in *. valid_without_timestamp Hok. Qed.

Lemma ScanHistory_valid_without data w :
  is_ok (ScanHistory.validate data w).1 = true ->
  is_ok (ScanHistory.validate (delete "scan_timestamp" data) w).1 = true.
Proof.
  intros Hok. unfold ScanHistory.validate in *. valid_without_timestamp Hok.
Qed.

Lemma NutritionProfile_valid_without key data w :
  key = "created_at" \/ key = "updated_at" ->
  is_ok (NutritionProfile.validate data w).1 = true ->
  is_ok (NutritionProfile.validate (delete key data) w).1 = true.
Proof.
  intros [->| ->] Hok; unfold NutritionProfile.validate in *;
    valid_without_timestamp Hok.
Qed.

(** Names the result of a run that is known to be accepted. *)
Ltac accepted_result Hok :=
  match type of Hok with
  | is_ok (?run).1 = true =>
      let r := fresh "r" in
      let w1 := fresh "w1" in
      let Hrun := fresh "Hrun" in
      destruct run as [r w1] eqn:Hrun; cbn [fst] in Hok;
      apply is_ok_result in Hok as [? ->];
      eexists _, _; split; [reflexivity|]
  end.

Lemma FoodItem_drop_created_at data w :
  is_ok (FoodItem.validate data w).1 = true ->
  exists f w1,
    FoodItem.validate (delete "created_at" data) w = (Ok f, w1) /\
    FoodItem.created_at f = now w.
Proof.
  intros Hok. apply (FoodItem_valid_without "created_at") in Hok; [|by left].
  accepted_result Hok.
  eapply FoodItem_created_at_default; [eassumption | apply lookup_delete_eq].
Qed.

Lemma FoodItem_drop_updated_at data w :
  is_ok (FoodItem.validate data w).1 = true ->
  exists f w1,
    FoodItem.validate (delete "updated_at" data) w = (Ok f, w1) /\
    FoodItem.updated_at f = now (after_created_at data w).
Proof.
  intros Hok. apply (FoodItem_valid_without "updated_at") in Hok; [|by right].
  accepted_result Hok.
  erewrite FoodItem_updated_at_default; [|eassumption | apply lookup_delete_eq].
  unfold after_created_at. by rewrite lookup_delete_ne.
Qed.

Lemma Barcode_drop_created_at data w :
  is_ok (Barcode.validate data w).1 = true ->
  exists b w1,
    Barcode.validate (delete "created_at" data) w = (Ok b, w1) /\
    Barcode.created_at b = now w.
Proof.
  intros Hok. apply Barcode_valid_without in Hok.
  accepted_result Hok.
  eapply Barcode_created_at_default; [eassumption | apply lookup_delete_eq].
Qed.

Lemma ScanHistory_drop_scan_timestamp data w :
  is_ok (ScanHistory.validate data w).1 = true ->
  exists h w1,
    ScanHistory.validate (delete "scan_timestamp" data) w = (Ok h, w1) /\
    ScanHistory.scan_timestamp h = now w.
Proof.
  intros Hok. apply ScanHistory_valid_without in Hok.
  accepted_result Hok.
  eapply ScanHistory_scan_timestamp_default; [eassumption | apply lookup_delete_eq].
Qed.

Lemma NutritionProfile_drop_created_at data w :
  is_ok (NutritionProfile.validate data w).1 = true ->
  exists p w1,
    NutritionProfile.validate (delete "created_at" data) w = (Ok p, w1) /\
    NutritionProfile.created_at p = now w.
Proof.
  intros Hok. apply (NutritionProfile_valid_without "created_at") in Hok; [|by left].
  accepted_result Hok.
  eapply NutritionProfile_created_at_default; [eassumption | apply lookup_delete_eq].
Qed.

Lemma NutritionProfile_drop_updated_at data w :
  is_ok (NutritionProfile.validate data w).1 = true ->
  exists p w1,
    NutritionProfile.validate (delete "updated_at" data) w = (Ok p, w1) /\
    NutritionProfile.updated_at p = now (after_created_at data w).
Proof.
  intros Hok. apply (NutritionProfile_valid_without "updated_at") in Hok; [|by right].
  accepted_result Hok.
  erewrite NutritionProfile_updated_at_default;
    [|eassumption | apply lookup_delete_eq].
  unfold after_created_at. by rewrite lookup_delete_ne.
Qed.

Lemma check_str_within n s :
  (String.length s <= n)%nat -> check_str (Field_max_length n) (VStr s) = inr s.
Proof.
  intros Hlen. unfold check_str. cbn [max_length Field_max_length].
  destruct (Nat.ltb_spec n (String.length s)); [lia | done].
Qed.

(** The least an input must give, and what is built from it. *)
Lemma FoodItem_from_name name w :
  (String.length name <= 255)%nat ->
  FoodItem.validate {[ "name" := VStr name ]} w =
    (Ok (FoodItem_only_name name (now w) (now (tick w))), tick (tick w)).
Proof.
  intros Hlen. unfold FoodItem.validate. run_validate.
  rewrite !read_default_None by reflexivity.
  rewrite (read_required_Some _ _ _ (VStr name)) by reflexivity.
  by rewrite (check_str_within _ _ Hlen).
Qed.

Lemma Barcode_from_required code barcode_type food_item_id w :
  (String.length code <= 50)%nat ->
  (String.length barcode_type <= 20)%nat ->
  Barcode.validate
    {[ "code" := VStr code; "barcode_type" := VStr barcode_type;
       "food_item_id" := VInt food_item_id ]} w =
    (Ok (Barcode.mk None code barcode_type food_item_id (now w)), tick w).
Proof.
  intros Hcode Htype. unfold Barcode.validate. run_validate.
  rewrite !read_default_None by reflexivity.
  rewrite (read_required_Some "code" _ _ (VStr code)) by reflexivity.
  rewrite (read_required_Some "barcode_type" _ _ (VStr barcode_type)) by reflexivity.
  rewrite (read_required_Some "food_item_id" _ _ (VInt food_item_id)) by reflexivity.
  by rewrite (check_str_within _ _ Hcode), (check_str_within _ _ Htype).
Qed.

Lemma ScanHistory_from_required food_item_id barcode_scanned w :
  (String.length barcode_scanned <= 50)%nat ->
  ScanHistory.validate
    {[ "food_item_id" := VInt food_item_id;
       "barcode_scanned" := VStr barcode_scanned ]} w =
    (Ok (ScanHistory.mk None food_item_id barcode_scanned (now w) None None),
     tick w).
Proof.
  intros Hcode. unfold ScanHistory.validate. run_validate.
  rewrite !read_default_None by reflexivity.
  rewrite (read_required_Some "food_item_id" _ _ (VInt food_item_id)) by reflexivity.
  rewrite (read_required_Some "barcode_scanned" _ _ (VStr barcode_scanned))
    by reflexivity.
  by rewrite (check_str_within _ _ Hcode).
Qed.

Lemma NutritionProfile_from_name name w :
  (String.length name <= 100)%nat ->
  NutritionProfile.validate {[ "name" := VStr name ]} w =
    (Ok (NutritionProfile_only_name name (now w) (now (tick w))), tick (tick w)).
Proof.
  intros Hlen. unfold NutritionProfile.validate. run_validate.
  rewrite !read_default_None by reflexivity.
  rewrite (read_required_Some _ _ _ (VStr name)) by reflexivity.
  by rewrite (check_str_within _ _ Hlen).
Qed.

(** C7.  When a FoodItem, Barcode, ScanHistory or NutritionProfile is built
    from an input that does not give a timestamp field, the field is the
    reading of the clock taken when the field is filled: [now] of the world
    the object is built in ([updated_at] is filled after [created_at], with
    the next reading when both are missing).  The object is built: an input
    that gives the required attributes and nothing else is accepted with its
    timestamps read from the clock, and an accepted input from which a
    timestamp is dropped is accepted again, with the reading of the clock in
    its place.  So the default follows the clock: the same input built at
    time [t] gets [t]. *)
Theorem timestamps_default_to_utcnow (data : gmap string PyVal) (w w' : World) :
  (forall f, FoodItem.validate data w = (Ok f, w') ->
     (data !! "created_at" = None -> FoodItem.created_at f = now w) /\
     (data !! "updated_at" = None ->
      FoodItem.updated_at f = now (after_created_at data w))) /\
  (forall b, Barcode.validate data w = (Ok b, w') ->
     data !! "created_at" = None -> Barcode.created_at b = now w) /\
  (forall h, ScanHistory.validate data w = (Ok h, w') ->
     data !! "scan_timestamp" = None -> ScanHistory.scan_timestamp h = now w) /\
  (forall p, NutritionProfile.validate data w = (Ok p, w') ->
     (data !! "created_at" = None -> NutritionProfile.created_at p = now w) /\
     (data !! "updated_at" = None ->
      NutritionProfile.updated_at p = now (after_created_at data w))) /\
  (forall t, exists f w1,
     FoodItem.validate {[ "name" := VStr "Muesli" ]} (clock_at t) = (Ok f, w1) /\
     FoodItem.created_at f = t /\ FoodItem.updated_at f = t) /\
  (forall name,
     (String.length name <= 255)%nat ->
     FoodItem.validate {[ "name" := VStr name ]} w =
       (Ok (FoodItem_only_name name (now w) (now (tick w))), tick (tick w))) /\
  (forall code barcode_type food_item_id,
     (String.length code <= 50)%nat ->
     (String.length barcode_type <= 20)%nat ->
     Barcode.validate
       {[ "code" := VStr code; "barcode_type" := VStr barcode_type;
          "food_item_id" := VInt food_item_id ]} w =
       (Ok (Barcode.mk None code barcode_type food_item_id (now w)), tick w)) /\
  (forall food_item_id barcode_scanned,
     (String.length barcode_scanned <= 50)%nat ->
     ScanHistory.validate
       {[ "food_item_id" := VInt food_item_id;
          "barcode_scanned" := VStr barcode_scanned ]} w =
       (Ok (ScanHistory.mk None food_item_id barcode_scanned (now w) None None),
        tick w)) /\
  (forall name,
     (String.length name <= 100)%nat ->
     NutritionProfile.validate {[ "name" := VStr name ]} w =
       (Ok (NutritionProfile_only_name name (now w) (now (tick w))),
        tick (tick w))) /\
  (is_ok (FoodItem.validate data w).1 = true ->
     (exists f w1,
        FoodItem.validate (delete "created_at" data) w = (Ok f, w1) /\
        FoodItem.created_at f = now w) /\
     (exists f w1,
        FoodItem.validate (delete "updated_at" data) w = (Ok f, w1) /\
        FoodItem.updated_at f = now (after_created_at data w))) /\
  (is_ok (Barcode.validate data w).1 = true ->
     exists b w1,
       Barcode.validate (delete "created_at" data) w = (Ok b, w1) /\
       Barcode.created_at b = now w) /\
  (is_ok (ScanHistory.validate data w).1 = true ->
     exists h w1,
       ScanHistory.validate (delete "scan_timestamp" data) w = (Ok h, w1) /\
       ScanHistory.scan_timestamp h = now w) /\
  (is_ok (NutritionProfile.validate data w).1 = true ->
     (exists p w1,
        NutritionProfile.validate (delete "created_at" data) w = (Ok p, w1) /\
        NutritionProfile.created_at p = now w) /\
     (exists p w1,
        NutritionProfile.validate (delete "updated_at" data) w = (Ok p, w1) /\
        NutritionProfile.updated_at p = now (after_created_at data w))).
Proof.
  split_and!.
  - intros f Hrun. split.
    + by apply (FoodItem_created_at_default data w f w').
    + by apply (FoodItem_updated_at_default data w f w').
  - intros b Hrun. by apply (Barcode_created_at_default data w b w').
  - intros h Hrun. by apply (ScanHistory_scan_timestamp_default data w h w').
  - intros p Hrun. split.
    + by apply (NutritionProfile_created_at_default data w p w').
    + by apply (NutritionProfile_updated_at_default data w p w').
  - intros t. eexists _, _. split; [reflexivity | done].
  - intros name. apply FoodItem_from_name.
  - intros code barcode_type food_item_id. apply Barcode_from_required.
  - intros food_item_id barcode_scanned. apply ScanHistory_from_required.
  - intros name. apply NutritionProfile_from_name.
  - intros Hok. split.
    + by apply FoodItem_drop_created_at.
    + by apply FoodItem_drop_updated_at.
  - apply Barcode_drop_created_at.
  - apply ScanHistory_drop_scan_timestamp.
  - intros Hok. split.
    + by apply NutritionProfile_drop_created_at.
    + by apply NutritionProfile_drop_updated_at.
Qed.

Lemma timestamps_default_to_utcnow_witness :
  (exists f w',
     FoodItem.validate {[ "name" := VStr "Muesli" ]} counting_clock = (Ok f, w') /\
     ({[ "name" := VStr "Muesli" ]} : gmap string PyVal) !! "created_at" = None /\
     ({[ "name" := VStr "Muesli" ]} : gmap string PyVal) !! "updated_at" = None /\
     FoodItem.created_at f = 0 /\ FoodItem.updated_at f = 1) /\
  Barcode.validate
    {[ "code" := VStr "4006040000013"; "barcode_type" := VStr "EAN13";
       "food_item_id" := VInt 1 ]} counting_clock =
    (Ok (Barcode.mk None "4006040000013" "EAN13" 1 0), tick counting_clock) /\
  ScanHistory.validate
    {[ "food_item_id" := VInt 1; "barcode_scanned" := VStr "4006040000013" ]}
    counting_clock =
    (Ok (ScanHistory.mk None 1 "4006040000013" 0 None None), tick counting_clock) /\
  NutritionProfile.validate {[ "name" := VStr "General Adult" ]} counting_clock =
    (Ok (NutritionProfile_only_name "General Adult" 0 1),
     tick (tick counting_clock)) /\
  (exists b w1,
     Barcode.validate
       (delete "created_at"
          {[ "code" := VStr "4006040000013"; "barcode_type" := VStr "EAN13";
             "food_item_id" := VInt 1; "created_at" := VDatetime 42 ]})
       counting_clock = (Ok b, w1) /\
     Barcode.created_at b = 0).
Proof.
  split; [|split_and!].
  - eexists _, _. split; [reflexivity|].
    split; [reflexivity|]. split; [reflexivity|].
    edestruct (timestamps_default_to_utcnow {[ "name" := VStr "Muesli" ]}
                 counting_clock) as (Hitem & _).
    edestruct Hitem as [Hcreated Hupdated]; [reflexivity|].
    split; [exact (Hcreated eq_refl) | exact (Hupdated eq_refl)].
  - edestruct (timestamps_default_to_utcnow ∅ counting_clock counting_clock)
      as (_ & _ & _ & _ & _ & _ & Hbarcode & _).
    apply (Hbarcode "4006040000013" "EAN13" 1); simpl; lia.
  - edestruct (timestamps_default_to_utcnow ∅ counting_clock counting_clock)
      as (_ & _ & _ & _ & _ & _ & _ & Hscan & _).
    apply (Hscan 1 "4006040000013"); simpl; lia.
  - edestruct (timestamps_default_to_utcnow ∅ counting_clock counting_clock)
      as (_ & _ & _ & _ & _ & _ & _ & _ & Hprofile & _).
    apply (Hprofile "General Adult"); simpl; lia.
  - edestruct (timestamps_default_to_utcnow
                 {[ "code" := VStr "4006040000013"; "barcode_type" := VStr "EAN13";
                    "food_item_id" := VInt 1; "created_at" := VDatetime 42 ]}
                 counting_clock counting_clock)
      as (_ & _ & _ & _ & _ & _ & _ & _ & _ & _ & Hdrop & _).
    apply Hdrop. reflexivity.
Defined.

(** ** ScanResult *)

(** C10.  ScanResult does not tie [found] to [food_item]: an input with
    [found=True] and no food item is accepted, and so is an input with
    [found=False] and a food item, whatever mapping it is; the attributes
    are stored as given. *)
Theorem found_independent_of_food_item (code : string) (w : World) :
  (exists r w',
     ScanResult.validate
       {[ "barcode" := VStr code; "found" := VBool true ]} w = (Ok r, w') /\
     ScanResult.found r = true /\ ScanResult.food_item r = None) /\
  (forall kv, exists r w',
     ScanResult.validate
       {[ "barcode" := VStr code; "found" := VBool false;
          "food_item" := VDict kv ]} w = (Ok r, w') /\
     ScanResult.found r = false /\ ScanResult.food_item r = Some kv).
Proof.
  split; [|intros kv]; eexists _, _; (split; [reflexivity | done]).
Qed.

(** ** The tables *)

Lemma code_taken_iff (code : string) (table : gmap Z Barcode.t) :
  code_taken code table = true <->
  exists k b, table !! k = Some b /\ Barcode.code b = code.
Proof.
  unfold code_taken. rewrite existsb_exists. split.
  - intros ([k b] & Hin & Heq). exists k, b.
    apply list_elem_of_In, elem_of_map_to_list in Hin.
    by apply String.eqb_eq in Heq.
  - intros (k & b & Hrow & Heq). exists (k, b). split.
    + by apply list_elem_of_In, elem_of_map_to_list.
    + by apply String.eqb_eq.
Qed.

Lemma find_barcode_None (code : string) (s : Store) :
  (forall k b, barcodes s !! k = Some b -> Barcode.code b <> code) ->
  find_barcode code s = None.
Proof.
  intros Hnone. unfold find_barcode.
  destruct (find _ _) as [[k b]|] eqn:Hfind; [|done].
  apply find_some in Hfind as [Hin Heq].
  apply list_elem_of_In, elem_of_map_to_list in Hin.
  apply String.eqb_eq in Heq. by destruct (Hnone k b).
Qed.

(** The key given to a new row is not the key of a stored row. *)
Lemma next_id_above {R : Type} (table : gmap Z R) (k : Z) :
  is_Some (table !! k) -> k < next_id table.
Proof.
  unfold next_id. revert k.
  apply (map_fold_weak_ind
           (fun r (m : gmap Z R) => forall k, is_Some (m !! k) -> k < 1 + r)).
  - intros k [x Hx]. by rewrite lookup_empty in Hx.
  - intros i x m r _ IH k. rewrite lookup_insert_is_Some'.
    intros [->|Hk]; [lia|]. specialize (IH k Hk). lia.
Qed.

Lemma next_id_fresh {R : Type} (table : gmap Z R) : table !! next_id table = None.
Proof.
  destruct (table !! next_id table) eqn:Hrow; [|done].
  pose proof (next_id_above table (next_id table)) as Hlt.
  rewrite Hrow in Hlt. specialize (Hlt (mk_is_Some _ _ eq_refl)). lia.
Qed.

(** A rejected insert leaves the tables as they were. *)
Lemma insert_barcode_rejected (b : Barcode.t) (s : Store) (v : DbError) :
  In v (primary_key_violations (barcodes s) (Barcode.id b)
        ++ unique_code_violations (Barcode.code b) (barcodes s)
        ++ foreign_key_violations (Barcode.food_item_id b) s) ->
  exists vs, insert_barcode b s = (Rejected vs, s) /\ In v vs.
Proof.
  intros Hin. unfold insert_barcode.
  destruct (_ ++ _)%list as [|v0 vs]; [destruct Hin|].
  by exists (v0 :: vs).
Qed.

Lemma insert_scan_history_rejected (h : ScanHistory.t) (s : Store) (v : DbError) :
  In v (primary_key_violations (scan_history s) (ScanHistory.id h)
        ++ foreign_key_violations (ScanHistory.food_item_id h) s) ->
  exists vs, insert_scan_history h s = (Rejected vs, s) /\ In v vs.
Proof.
  intros Hin. unfold insert_scan_history.
  destruct (_ ++ _)%list as [|v0 vs]; [destruct Hin|].
  by exists (v0 :: vs).
Qed.

(** What a committed insert wrote. *)
Lemma insert_food_item_inv (f : FoodItem.t) (s : Store) :
  (insert_food_item f s).2 = s \/
  exists k,
    (insert_food_item f s).2 =
      {| food_items := <[k := FoodItem_with_id k f]> (food_items s);
         barcodes := barcodes s;
         scan_history := scan_history s |}.
Proof.
  unfold insert_food_item.
  destruct (primary_key_violations _ _); [right; by eexists | by left].
Qed.

Lemma insert_barcode_inv (b : Barcode.t) (s : Store) :
  (insert_barcode b s).2 = s \/
  exists k,
    code_taken (Barcode.code b) (barcodes s) = false /\
    is_Some (food_items s !! Barcode.food_item_id b) /\
    (insert_barcode b s).2 =
      {| food_items := food_items s;
         barcodes := <[k := Barcode_with_id k b]> (barcodes s);
         scan_history := scan_history s |}.
Proof.
  unfold insert_barcode, unique_code_violations, foreign_key_violations.
  destruct (primary_key_violations _ _); [|by left].
  destruct (code_taken _ _); [by left|].
  destruct (food_items s !! _) eqn:Hfk; [|by left].
  right. eexists. by split_and!.
Qed.

Lemma insert_scan_history_inv (h : ScanHistory.t) (s : Store) :
  (insert_scan_history h s).2 = s \/
  exists k,
    is_Some (food_items s !! ScanHistory.food_item_id h) /\
    (insert_scan_history h s).2 =
      {| food_items := food_items s;
         barcodes := barcodes s;
         scan_history := <[k := ScanHistory_with_id k h]> (scan_history s) |}.
Proof.
  unfold insert_scan_history, foreign_key_violations.
  destruct (primary_key_violations _ _); [|by left].
  destruct (food_items s !! _) eqn:Hfk; [|by left].
  right. eexists. by split_and!.
Qed.

(** In every state the inserts can build, no two rows share a code. *)
Lemma reachable_codes_unique (s : Store) : reachable s -> codes_unique s.
Proof.
  induction 1 as [|s f _ IH|s b _ IH|s h _ IH].
  - intros k1 k2 b1 b2 H1. unfold empty_store, barcodes in H1.
    by rewrite lookup_empty in H1.
  - by destruct (insert_food_item_inv f s) as [->|(k & ->)].
  - destruct (insert_barcode_inv b s) as [->|(k & Hfree & _ & ->)]; [done|].
    assert (forall k' b', barcodes s !! k' = Some b' ->
                          Barcode.code b' <> Barcode.code b) as Hnew.
    { intros k' b' Hrow Heq.
      assert (code_taken (Barcode.code b) (barcodes s) = true) as Htaken
        by (apply code_taken_iff; eauto).
      congruence. }
    intros k1 k2 b1 b2. cbn [barcodes].
    rewrite !lookup_insert. repeat case_decide; subst; try done.
    + intros [= <-] Hrow Heq. symmetry in Heq. by destruct (Hnew k2 b2).
    + intros Hrow [= <-] Heq. by destruct (Hnew k1 b1).
    + apply IH.
  - by destruct (insert_scan_history_inv h s) as [->|(k & _ & ->)].
Qed.

(** In every state the inserts can build, every reference has its row. *)
Lemma reachable_references_exist (s : Store) : reachable s -> references_exist s.
Proof.
  induction 1 as [|s f _ IH|s b _ IH|s h _ IH].
  - split; intros k r Hrow; unfold empty_store, barcodes, scan_history in Hrow;
      by rewrite lookup_empty in Hrow.
  - destruct (insert_food_item_inv f s) as [->|(k & ->)]; [done|].
    destruct IH as [IHb IHh].
    split; intros k' r Hrow; cbn [food_items barcodes scan_history] in *;
      rewrite lookup_insert_is_Some'; right; eauto.
  - destruct (insert_barcode_inv b s) as [->|(k & _ & Hfk & ->)]; [done|].
    destruct IH as [IHb IHh].
    split; intros k' r; cbn [food_items barcodes scan_history]; [|by eauto].
    rewrite lookup_insert. case_decide; [|by eauto].
    by intros [= <-].
  - destruct (insert_scan_history_inv h s) as [->|(k & Hfk & ->)]; [done|].
    destruct IH as [IHb IHh].
    split; intros k' r; cbn [food_items barcodes scan_history]; [by eauto|].
    rewrite lookup_insert. case_decide; [|by eauto].
    by intros [= <-].
Qed.

(** C1.  Where the table holds a Barcode with some code, inserting another
    Barcode with that code is rejected, UniquenessViolation of [code] is
    among the reported violations, and the tables are left as they were;
    so in every state the inserts can build no two rows share a code. *)
Theorem barcode_code_unique (s : Store) (b b0 : Barcode.t) (k : Z) :
  barcodes s !! k = Some b0 ->
  Barcode.code b0 = Barcode.code b ->
  (exists vs,
     insert_barcode b s = (Rejected vs, s) /\
     In (UniquenessViolation "code") vs) /\
  (reachable s -> codes_unique s /\ codes_unique (insert_barcode b s).2).
Proof.
  intros Hrow Hcode. split.
  - apply insert_barcode_rejected.
    apply in_or_app. right. apply in_or_app. left.
    unfold unique_code_violations.
    replace (code_taken (Barcode.code b) (barcodes s)) with true; [by left|].
    symmetry. apply code_taken_iff. eauto.
  - intros Hreach. split; apply reachable_codes_unique; [done|].
    by constructor.
Qed.

Lemma barcode_code_unique_witness :
  barcodes store_with_barcode !! 1 = Some (Barcode_with_id 1 muesli_barcode) /\
  Barcode.code (Barcode_with_id 1 muesli_barcode) = Barcode.code muesli_barcode /\
  reachable store_with_barcode /\
  insert_barcode muesli_barcode store_with_barcode =
    (Rejected [UniquenessViolation "code"], store_with_barcode) /\
  codes_unique store_with_barcode.
Proof.
  assert (reachable store_with_barcode) as Hreach by (do 2 constructor; constructor).
  destruct (barcode_code_unique store_with_barcode muesli_barcode
              (Barcode_with_id 1 muesli_barcode) 1 eq_refl eq_refl)
    as [(vs & Hrejected & _) Hunique].
  split; [reflexivity|]. split; [reflexivity|]. split; [exact Hreach|].
  split; [reflexivity | exact (proj1 (Hunique Hreach))].
Defined.

(** C2.  A Barcode or ScanHistory row whose [food_item_id] is the key of no
    stored FoodItem is rejected, ReferentialIntegrityError is among the
    reported violations, and nothing is written; and in every state the
    inserts can build, every Barcode and ScanHistory row references a
    stored FoodItem. *)
Theorem food_item_reference_enforced (s : Store) :
  (forall b : Barcode.t,
     food_items s !! Barcode.food_item_id b = None ->
     exists vs,
       insert_barcode b s = (Rejected vs, s) /\
       In (ReferentialIntegrityError "food_item_id") vs) /\
  (forall h : ScanHistory.t,
     food_items s !! ScanHistory.food_item_id h = None ->
     exists vs,
       insert_scan_history h s = (Rejected vs, s) /\
       In (ReferentialIntegrityError "food_item_id") vs) /\
  (reachable s -> references_exist s).
Proof.
  split_and!.
  - intros b Hdangling. apply insert_barcode_rejected.
    apply in_or_app. right. apply in_or_app. right.
    unfold foreign_key_violations. rewrite Hdangling. by left.
  - intros h Hdangling. apply insert_scan_history_rejected.
    apply in_or_app. right.
    unfold foreign_key_violations. rewrite Hdangling. by left.
  - apply reachable_references_exist.
Qed.

Lemma food_item_reference_enforced_witness :
  food_items store_with_muesli !! Barcode.food_item_id dangling_barcode = None /\
  food_items store_with_muesli !! ScanHistory.food_item_id dangling_scan = None /\
  reachable store_with_muesli /\
  (exists vs,
     insert_barcode dangling_barcode store_with_muesli =
       (Rejected vs, store_with_muesli) /\
     In (ReferentialIntegrityError "food_item_id") vs) /\
  (exists vs,
     insert_scan_history dangling_scan store_with_muesli =
       (Rejected vs, store_with_muesli) /\
     In (ReferentialIntegrityError "food_item_id") vs) /\
  references_exist store_with_muesli.
Proof.
  assert (reachable store_with_muesli) as Hreach by (constructor; constructor).
  destruct (food_item_reference_enforced store_with_muesli)
    as (Hbarcode & Hscan & Hinv).
  split; [reflexivity|]. split; [reflexivity|]. split; [exact Hreach|].
  split; [exact (Hbarcode dangling_barcode eq_refl)|].
  split; [exact (Hscan dangling_scan eq_refl) | exact (Hinv Hreach)].
Defined.

(** C4.  Persisting a FoodItemCreate commits a row, and reading the row
    back by its key gives a FoodItem with that key whose name, brand,
    description, ten nutrient decimals, two scores and three lists are the
    ones of the FoodItemCreate, each decimal with its sign, coefficient and
    exponent. *)
Theorem create_read_round_trip (c : FoodItemCreate.t) (s : Store) (w : World) :
  exists k s' w' f,
    persist_food_item c s w = (Committed k, s', w') /\
    read_food_item k s' = Some f /\
    FoodItem.id f = Some k /\
    same_fields c f.
Proof.
  unfold persist_food_item, FoodItem_from_create, utcnow, insert_food_item.
  cbn [primary_key_violations FoodItem.id row_id].
  eexists _, _, _, _. split; [reflexivity|].
  unfold read_food_item. cbn [food_items].
  rewrite lookup_insert_eq. split; [reflexivity|].
  split; [reflexivity|]. unfold same_fields. by split_and!.
Qed.

(** The populated sample comes back with its sugars as 25.0, which is not
    the record of 25. *)
Example cola_round_trip :
  all_populated cola /\
  (FoodItem.sugars <$>
     read_food_item 1 (persist_food_item cola empty_store counting_clock).1.2)
    = Some (Some sugars_25_0) /\
  sugars_25_0 <> sugars_25 /\
  Decimal_leb sugars_25_0 sugars_25 && Decimal_leb sugars_25 sugars_25_0 = true.
Proof.
  split_and!; [|reflexivity|discriminate|reflexivity].
  unfold all_populated, cola. cbn. split_and!; by eexists.
Qed.

(** C9.  Where no Barcode row has the code "5901234123457", scanning it
    gives a ScanResult with that barcode, [found=False] and no food item. *)
Theorem scan_miss (s : Store) (w : World) :
  (forall k b, barcodes s !! k = Some b -> Barcode.code b <> "5901234123457") ->
  exists r w',
    scan "5901234123457" s w = (Ok r, w') /\
    ScanResult.barcode r = "5901234123457" /\
    ScanResult.found r = false /\
    ScanResult.food_item r = None.
Proof.
  intros Hnone. unfold scan.
  rewrite (find_barcode_None _ _ Hnone). cbn [mbind option_bind].
  eexists _, _. split; [reflexivity | done].
Qed.

Lemma scan_miss_witness :
  code_taken "5901234123457" (barcodes store_with_barcode) = false /\
  exists r w',
    scan "5901234123457" store_with_barcode counting_clock = (Ok r, w') /\
    ScanResult.barcode r = "5901234123457" /\
    ScanResult.found r = false /\
    ScanResult.food_item r = None.
Proof.
  split; [reflexivity|].
  apply scan_miss. intros k b Hrow Hcode.
  assert (code_taken "5901234123457" (barcodes store_with_barcode) = true) as Htaken
    by (apply code_taken_iff; eauto).
  vm_compute in Htaken. discriminate Htaken.
Defined.

(** * Further properties of the declarations *)

(** ** Readers, once more *)

Lemma check_str_max (n : nat) (s : string) :
  check_str (Field_max_length n) (VStr s) =
  if (n <? String.length s)%nat then inl (StringTooLong n) else inr s.
Proof. reflexivity. Qed.

Lemma errors_required_str name n data s :
  data !! name = Some (VStr s) ->
  errors_of (read_required name (check_str (Field_max_length n)) data) =
  length_errors name n s.
Proof.
  intros Hs. rewrite (read_required_Some _ _ _ _ Hs), check_str_max.
  unfold length_errors. by destruct (n <? String.length s)%nat.
Qed.

Lemma errors_default_str name n data s :
  data !! name = Some (VStr s) ->
  errors_of (read_default name (Optional (check_str (Field_max_length n))) None data) =
  length_errors name n s.
Proof.
  intros Hs. rewrite (read_default_Some _ _ _ _ _ Hs).
  unfold Optional. rewrite check_str_max.
  unfold length_errors. by destruct (n <? String.length s)%nat.
Qed.

(** The errors of a reader are at most one, and for its own field. *)
Lemma locs_required {T : Type} name (c : FieldCheck T) data :
  map loc (errors_of (read_required name c data)) = [] \/
  map loc (errors_of (read_required name c data)) = [name].
Proof.
  unfold read_required. destruct (data !! name) as [v|]; [|by right].
  destruct (c v); [by right | by left].
Qed.

Lemma locs_default {T : Type} name (c : FieldCheck T) d data :
  map loc (errors_of (read_default name c d data)) = [] \/
  map loc (errors_of (read_default name c d data)) = [name].
Proof.
  unfold read_default. destruct (data !! name) as [v|]; [|by left].
  destruct (c v); [by right | by left].
Qed.

Lemma sublist_locs_cons (name : string) (es rest : list FieldError) (names : list string) :
  map loc es = [] \/ map loc es = [name] ->
  sublist (map loc rest) names ->
  sublist (map loc (es ++ rest)) (name :: names).
Proof.
  intros [Hes|Hes] Hrest; rewrite map_app, Hes; simpl.
  - by apply sublist_cons.
  - by apply sublist_skip.
Qed.

Lemma required_missing_inv {T : Type} name (c : FieldCheck T) data k :
  never_missing c ->
  In {| loc := k; kind := Missing |} (errors_of (read_required name c data)) ->
  k = name /\ data !! name = None.
Proof.
  intros Hc. unfold read_required.
  destruct (data !! name) as [v|]; simpl.
  - specialize (Hc v). destruct (c v) as [e|]; simpl; [|tauto].
    intros [[= ? ?]|[]]. subst. congruence.
  - intros [[= ?]|[]]. by subst.
Qed.

(** ** String limits *)

Ltac each_limit Hin :=
  cbn [In FoodItem_max_lengths Barcode_max_lengths ScanHistory_max_lengths
         NutritionProfile_max_lengths] in Hin;
  repeat (destruct Hin as [[= <- <-]|Hin]); [..|destruct Hin].

Ltac limit_of_field Hs :=
  run_validate; cbn [fst]; errors_at_field;
  first [ exact (errors_required_str _ _ _ _ Hs)
        | exact (errors_default_str _ _ _ _ Hs) ].

(** X1.  Barcode and BarcodeCreate limit [code] to 50 characters and
    [barcode_type] to 20: where the input gives a string for one of them,
    the error reported for that field is "too long" with the declared limit
    exactly when the string is longer, and nothing otherwise. *)
Theorem Barcode_length_limits (data : gmap string PyVal) (w : World)
    (name : string) (n : nat) (s : string) :
  In (name, n) Barcode_max_lengths ->
  data !! name = Some (VStr s) ->
  errors_at name (errors_of (Barcode.validate data w).1) = length_errors name n s /\
  errors_at name (errors_of (BarcodeCreate.validate data w).1) = length_errors name n s.
Proof.
  intros Hin Hs. each_limit Hin; split.
  all: first [ unfold Barcode.validate; limit_of_field Hs
             | unfold BarcodeCreate.validate; limit_of_field Hs ].
Qed.

Lemma Barcode_length_limits_witness :
  In ("code", 50%nat) Barcode_max_lengths /\
  ({[ "code" := VStr (str_repeat "9" 51) ]} : gmap string PyVal) !! "code" =
    Some (VStr (str_repeat "9" 51)) /\
  errors_at "code"
    (errors_of (BarcodeCreate.validate {[ "code" := VStr (str_repeat "9" 51) ]}
                  counting_clock).1) =
    [ {| loc := "code"; kind := StringTooLong 50 |} ] /\
  errors_at "code"
    (errors_of (Barcode.validate {[ "code" := VStr (str_repeat "9" 50) ]}
                  counting_clock).1) = [].
Proof.
  assert (In ("code", 50%nat) Barcode_max_lengths) as Hin by (simpl; tauto).
  split; [exact Hin|]. split; [reflexivity|]. split.
  - edestruct (Barcode_length_limits {[ "code" := VStr (str_repeat "9" 51) ]}
                 counting_clock "code" 50 (str_repeat "9" 51) Hin) as [_ H];
      [reflexivity | exact H].
  - edestruct (Barcode_length_limits {[ "code" := VStr (str_repeat "9" 50) ]}
                 counting_clock "code" 50 (str_repeat "9" 50) Hin) as [H _];
      [reflexivity | exact H].
Defined.

(** X2.  ScanHistory limits [barcode_scanned] to 50 characters,
    [user_agent] to 500 and [ip_address] to 45: the error reported for such
    a field is "too long" with the declared limit exactly when the given
    string is longer. *)
Theorem ScanHistory_length_limits (data : gmap string PyVal) (w : World)
    (name : string) (n : nat) (s : string) :
  In (name, n) ScanHistory_max_lengths ->
  data !! name = Some (VStr s) ->
  errors_at name (errors_of (ScanHistory.validate data w).1) = length_errors name n s.
Proof.
  intros Hin Hs. each_limit Hin.
  all: unfold ScanHistory.validate; limit_of_field Hs.
Qed.

Lemma ScanHistory_length_limits_witness :
  In ("ip_address", 45%nat) ScanHistory_max_lengths /\
  ({[ "ip_address" := VStr (str_repeat "f" 46) ]} : gmap string PyVal)
    !! "ip_address" = Some (VStr (str_repeat "f" 46)) /\
  errors_at "ip_address"
    (errors_of (ScanHistory.validate {[ "ip_address" := VStr (str_repeat "f" 46) ]}
                  counting_clock).1) =
    [ {| loc := "ip_address"; kind := StringTooLong 45 |} ].
Proof.
  assert (In ("ip_address", 45%nat) ScanHistory_max_lengths) as Hin
    by (simpl; tauto).
  split; [exact Hin|]. split; [reflexivity|].
  eapply (ScanHistory_length_limits _ counting_clock "ip_address" 45
            (str_repeat "f" 46) Hin).
  reflexivity.
Defined.

(** X3.  NutritionProfile limits [name] to 100 characters and
    [description] to 500: the error reported for such a field is "too long"
    with the declared limit exactly when the given string is longer. *)
Theorem NutritionProfile_length_limits (data : gmap string PyVal) (w : World)
    (name : string) (n : nat) (s : string) :
  In (name, n) NutritionProfile_max_lengths ->
  data !! name = Some (VStr s) ->
  errors_at name (errors_of (NutritionProfile.validate data w).1) =
    length_errors name n s.
Proof.
  intros Hin Hs. each_limit Hin.
  all: unfold NutritionProfile.validate; limit_of_field Hs.
Qed.

Lemma NutritionProfile_length_limits_witness :
  In ("name", 100%nat) NutritionProfile_max_lengths /\
  ({[ "name" := VStr (str_repeat "n" 101) ]} : gmap string PyVal) !! "name" =
    Some (VStr (str_repeat "n" 101)) /\
  errors_at "name"
    (errors_of (NutritionProfile.validate {[ "name" := VStr (str_repeat "n" 101) ]}
                  counting_clock).1) =
    [ {| loc := "name"; kind := StringTooLong 100 |} ].
Proof.
  assert (In ("name", 100%nat) NutritionProfile_max_lengths) as Hin
    by (simpl; tauto).
  split; [exact Hin|]. split; [reflexivity|].
  eapply (NutritionProfile_length_limits _ counting_clock "name" 100
            (str_repeat "n" 101) Hin).
  reflexivity.
Defined.

(** X4.  FoodItem, FoodItemCreate and FoodItemUpdate limit [name] to 255
    characters, [brand] to 255 and [description] to 1000, the three classes
    alike: the error reported for such a field is "too long" with the
    declared limit exactly when the given string is longer. *)
Theorem FoodItem_length_limits (data : gmap string PyVal) (w : World)
    (name : string) (n : nat) (s : string) :
  In (name, n) FoodItem_max_lengths ->
  data !! name = Some (VStr s) ->
  errors_at name (errors_of (FoodItem.validate data w).1) = length_errors name n s /\
  errors_at name (errors_of (FoodItemCreate.validate data w).1) =
    length_errors name n s /\
  errors_at name (errors_of (FoodItemUpdate.validate data w).1) =
    length_errors name n s.
Proof.
  intros Hin Hs. each_limit Hin; split_and!.
  all: first [ unfold FoodItem.validate; limit_of_field Hs
             | unfold FoodItemCreate.validate; limit_of_field Hs
             | unfold FoodItemUpdate.validate; limit_of_field Hs ].
Qed.

Lemma FoodItem_length_limits_witness :
  In ("description", 1000%nat) FoodItem_max_lengths /\
  ({[ "description" := VStr (str_repeat "d" 1001) ]} : gmap string PyVal)
    !! "description" = Some (VStr (str_repeat "d" 1001)) /\
  errors_at "description"
    (errors_of (FoodItemUpdate.validate
                  {[ "description" := VStr (str_repeat "d" 1001) ]}
                  counting_clock).1) =
    [ {| loc := "description"; kind := StringTooLong 1000 |} ].
Proof.
  assert (In ("description", 1000%nat) FoodItem_max_lengths) as Hin
    by (simpl; tauto).
  split; [exact Hin|]. split; [reflexivity|].
  edestruct (FoodItem_length_limits
               {[ "description" := VStr (str_repeat "d" 1001) ]} counting_clock
               "description" 1000 (str_repeat "d" 1001) Hin) as (_ & _ & H);
    [reflexivity | exact H].
Defined.

(** ** Required attributes *)

(** From an error "missing" of a run to the required attribute that is
    absent. *)
Ltac missing_only_if Hin :=
  revert Hin; run_validate; cbn [fst]; intros Hin; split_errors Hin;
  first
    [ exfalso; eapply default_never_missing; [|exact Hin|reflexivity];
      auto with checks
    | apply required_missing_inv in Hin as [-> ?]; [|auto with checks];
      split; [simpl; auto 6 | assumption] ].

(** From an absent required attribute to its error "missing". *)
Ltac missing_if name Hnone :=
  eapply proj1, (errors_at_elem name);
  run_validate; cbn [fst]; errors_at_field;
  rewrite (read_required_None _ _ _ Hnone); by left.

Ltac each_required Hk :=
  cbn [In Barcode_required ScanHistory_required ScanResult_required
         HealthScore_fields] in Hk;
  repeat (destruct Hk as [<-|Hk]); [..|destruct Hk].

(** X5.  Barcode and BarcodeCreate require [code], [barcode_type] and
    [food_item_id] and nothing else: "missing" is reported for a field
    exactly when it is one of the three and the input does not give it. *)
Theorem Barcode_missing_iff (data : gmap string PyVal) (w : World) (k : string) :
  (In {| loc := k; kind := Missing |} (errors_of (Barcode.validate data w).1) <->
   In k Barcode_required /\ data !! k = None) /\
  (In {| loc := k; kind := Missing |} (errors_of (BarcodeCreate.validate data w).1) <->
   In k Barcode_required /\ data !! k = None).
Proof.
  split; split.
  - intros Hin. unfold Barcode.validate in Hin. missing_only_if Hin.
  - intros [Hk Hnone]. unfold Barcode.validate. each_required Hk.
    + missing_if "code" Hnone.
    + missing_if "barcode_type" Hnone.
    + missing_if "food_item_id" Hnone.
  - intros Hin. unfold BarcodeCreate.validate in Hin. missing_only_if Hin.
  - intros [Hk Hnone]. unfold BarcodeCreate.validate. each_required Hk.
    + missing_if "code" Hnone.
    + missing_if "barcode_type" Hnone.
    + missing_if "food_item_id" Hnone.
Qed.

Lemma Barcode_missing_iff_witness :
  In "food_item_id" Barcode_required /\
  ({[ "code" := VStr "4006040000013"; "barcode_type" := VStr "EAN13" ]}
     : gmap string PyVal) !! "food_item_id" = None /\
  In {| loc := "food_item_id"; kind := Missing |}
     (errors_of (BarcodeCreate.validate
                   {[ "code" := VStr "4006040000013"; "barcode_type" := VStr "EAN13" ]}
                   counting_clock).1).
Proof.
  assert (In "food_item_id" Barcode_required) as Hk by (simpl; tauto).
  split; [exact Hk|]. split; [reflexivity|].
  apply (Barcode_missing_iff _ counting_clock "food_item_id").
  split; [exact Hk | reflexivity].
Defined.

(** X6.  Of the table classes, FoodItem and NutritionProfile require only
    [name] and ScanHistory requires [food_item_id] and [barcode_scanned]:
    "missing" is reported for a field exactly when it is such a field and
    the input does not give it.  The keys and the timestamps are never
    missing. *)
Theorem table_missing_iff (data : gmap string PyVal) (w : World) (k : string) :
  (In {| loc := k; kind := Missing |} (errors_of (FoodItem.validate data w).1) <->
   k = "name" /\ data !! k = None) /\
  (In {| loc := k; kind := Missing |} (errors_of (NutritionProfile.validate data w).1) <->
   k = "name" /\ data !! k = None) /\
  (In {| loc := k; kind := Missing |} (errors_of (ScanHistory.validate data w).1) <->
   In k ScanHistory_required /\ data !! k = None).
Proof.
  split_and!; split.
  - intros Hin. unfold FoodItem.validate in Hin.
    revert Hin; run_validate; cbn [fst]; intros Hin; split_errors Hin;
      first
        [ exfalso; eapply default_never_missing; [|exact Hin|reflexivity];
          auto with checks
        | apply required_missing_inv in Hin as [-> ?]; [done | auto with checks] ].
  - intros [-> Hnone]. unfold FoodItem.validate. missing_if "name" Hnone.
  - intros Hin. unfold NutritionProfile.validate in Hin.
    revert Hin; run_validate; cbn [fst]; intros Hin; split_errors Hin;
      first
        [ exfalso; eapply default_never_missing; [|exact Hin|reflexivity];
          auto with checks
        | apply required_missing_inv in Hin as [-> ?]; [done | auto with checks] ].
  - intros [-> Hnone]. unfold NutritionProfile.validate. missing_if "name" Hnone.
  - intros Hin. unfold ScanHistory.validate in Hin. missing_only_if Hin.
  - intros [Hk Hnone]. unfold ScanHistory.validate. each_required Hk.
    + missing_if "food_item_id" Hnone.
    + missing_if "barcode_scanned" Hnone.
Qed.

Lemma table_missing_iff_witness :
  In "barcode_scanned" ScanHistory_required /\
  ({[ "food_item_id" := VInt 1 ]} : gmap string PyVal) !! "barcode_scanned" = None /\
  In {| loc := "barcode_scanned"; kind := Missing |}
     (errors_of (ScanHistory.validate {[ "food_item_id" := VInt 1 ]}
                   counting_clock).1).
Proof.
  assert (In "barcode_scanned" ScanHistory_required) as Hk by (simpl; tauto).
  split; [exact Hk|]. split; [reflexivity|].
  apply (table_missing_iff _ counting_clock "barcode_scanned").
  split; [exact Hk | reflexivity].
Defined.

(** X7.  Of the response schemas, ScanResult requires [barcode] and
    [found], HealthScore requires each of its four attributes, and
    NutritionSummary requires none: "missing" is reported for a field
    exactly when the class requires it and the input does not give it. *)
Theorem schema_missing_iff (data : gmap string PyVal) (w : World) (k : string) :
  (In {| loc := k; kind := Missing |} (errors_of (ScanResult.validate data w).1) <->
   In k ScanResult_required /\ data !! k = None) /\
  (In {| loc := k; kind := Missing |} (errors_of (HealthScore.validate data w).1) <->
   In k HealthScore_fields /\ data !! k = None) /\
  ~ In {| loc := k; kind := Missing |} (errors_of (NutritionSummary.validate data w).1).
Proof.
  split_and!; [split|split|].
  - intros Hin. unfold ScanResult.validate in Hin. missing_only_if Hin.
  - intros [Hk Hnone]. unfold ScanResult.validate. each_required Hk.
    + missing_if "barcode" Hnone.
    + missing_if "found" Hnone.
  - intros Hin. unfold HealthScore.validate in Hin. missing_only_if Hin.
  - intros [Hk Hnone]. unfold HealthScore.validate. each_required Hk.
    + missing_if "nutri_score" Hnone.
    + missing_if "health_assessment" Hnone.
    + missing_if "score_factors" Hnone.
    + missing_if "recommendations" Hnone.
  - intros Hin. unfold NutritionSummary.validate in Hin.
    revert Hin; run_validate; cbn [fst]; intros Hin; split_errors Hin;
      (eapply default_never_missing; [|exact Hin|reflexivity]; auto with checks).
Qed.

Lemma schema_missing_iff_witness :
  In "found" ScanResult_required /\
  ({[ "barcode" := VStr "5901234123457" ]} : gmap string PyVal) !! "found" = None /\
  In {| loc := "found"; kind := Missing |}
     (errors_of (ScanResult.validate {[ "barcode" := VStr "5901234123457" ]}
                   counting_clock).1).
Proof.
  assert (In "found" ScanResult_required) as Hk by (simpl; tauto).
  split; [exact Hk|]. split; [reflexivity|].
  apply (schema_missing_iff _ counting_clock "found").
  split; [exact Hk | reflexivity].
Defined.

(** ** The report of a run *)

Lemma sublist_locs_start (es : list FieldError) (names : list string) :
  sublist (map loc (es ++ [])) names -> sublist (map loc es) names.
Proof. by rewrite app_nil_r. Qed.

Lemma sublist_in_declaration_order (names fields : list string) :
  sublist names fields -> in_declaration_order names fields.
Proof.
  induction 1 as [|name names fields _ IH|name names fields _ IH].
  - apply order_done.
  - apply order_same. by apply order_next.
  - by apply order_next.
Qed.

Ltac locs_in_order :=
  run_validate; cbn [fst];
  rewrite !errors_of_vap; cbn [errors_of app];
  apply sublist_in_declaration_order;
  apply sublist_locs_start; rewrite <- !app_assoc;
  repeat (apply sublist_locs_cons;
          [first [apply locs_required | apply locs_default]|]);
  apply sublist_nil.

(** X8.  Whatever the input, every error a table class reports names an
    attribute of the class, and the errors follow the order of the
    declarations. *)
Theorem table_errors_in_order (data : gmap string PyVal) (w : World) :
  in_declaration_order (map loc (errors_of (FoodItem.validate data w).1))
    FoodItem_fields /\
  in_declaration_order (map loc (errors_of (Barcode.validate data w).1))
    Barcode_fields /\
  in_declaration_order (map loc (errors_of (ScanHistory.validate data w).1))
    ScanHistory_fields /\
  in_declaration_order (map loc (errors_of (NutritionProfile.validate data w).1))
    NutritionProfile_fields.
Proof.
  split_and!.
  - unfold FoodItem.validate. locs_in_order.
  - unfold Barcode.validate. locs_in_order.
  - unfold ScanHistory.validate. locs_in_order.
  - unfold NutritionProfile.validate. locs_in_order.
Qed.

(** X9.  Whatever the input, every error a request or response schema
    reports names an attribute of the schema, and the errors follow the
    order of the declarations. *)
Theorem schema_errors_in_order (data : gmap string PyVal) (w : World) :
  in_declaration_order (map loc (errors_of (FoodItemCreate.validate data w).1))
    FoodItemCreate_fields /\
  in_declaration_order (map loc (errors_of (FoodItemUpdate.validate data w).1))
    FoodItemCreate_fields /\
  in_declaration_order (map loc (errors_of (BarcodeCreate.validate data w).1))
    BarcodeCreate_fields /\
  in_declaration_order (map loc (errors_of (ScanResult.validate data w).1))
    ScanResult_fields /\
  in_declaration_order (map loc (errors_of (NutritionSummary.validate data w).1))
    NutritionSummary_fields /\
  in_declaration_order (map loc (errors_of (HealthScore.validate data w).1))
    HealthScore_fields.
Proof.
  split_and!.
  - unfold FoodItemCreate.validate. locs_in_order.
  - unfold FoodItemUpdate.validate. locs_in_order.
  - unfold BarcodeCreate.validate. locs_in_order.
  - unfold ScanResult.validate. locs_in_order.
  - unfold NutritionSummary.validate. locs_in_order.
  - unfold HealthScore.validate. locs_in_order.
Qed.

(** ** One input, two classes *)

Lemma required_str_as_optional name fi data s d :
  read_required name (check_str fi) data = Ok s ->
  read_default name (Optional (check_str fi)) d data = Ok (Some s).
Proof.
  unfold read_required, read_default.
  destruct (data !! name) as [v|]; [|discriminate].
  destruct v; try discriminate. unfold Optional.
  destruct (check_str fi (VStr _)); [discriminate|]. by intros [= ->].
Qed.

Lemma optional_str_as_required name fi data s :
  read_default name (Optional (check_str fi)) None data = Ok (Some s) ->
  read_required name (check_str fi) data = Ok s.
Proof.
  unfold read_required, read_default.
  destruct (data !! name) as [v|]; [|discriminate].
  destruct v; try discriminate. unfold Optional.
  destruct (check_str fi (VStr _)); [discriminate|]. by intros [= ->].
Qed.

(** Replays in the goal what the readers returned in an accepted run. *)
Ltac replay_readers :=
  repeat
    (match goal with
     | H : read_default _ _ _ _ = Ok _ |- _ => rewrite H; clear H
     | H : read_required _ _ _ = Ok _ |- _ => rewrite H; clear H
     end).

(** X11.  FoodItemUpdate accepts every input FoodItemCreate accepts and
    reads the same values from it; and an input FoodItemUpdate accepts with
    a name in it is accepted by FoodItemCreate, with the same values. *)
Theorem create_is_an_update (data : gmap string PyVal) (w w' : World) :
  (forall c,
     FoodItemCreate.validate data w = (Ok c, w') ->
     FoodItemUpdate.validate data w = (Ok (FoodItemUpdate_of_create c), w')) /\
  (forall u s,
     FoodItemUpdate.validate data w = (Ok u, w') ->
     FoodItemUpdate.name u = Some s ->
     exists c,
       FoodItemCreate.validate data w = (Ok c, w') /\
       FoodItemUpdate_of_create c = u).
Proof.
  split.
  - intros c Hrun. unfold FoodItemCreate.validate in Hrun.
    revert Hrun; run_validate; intros Hrun; invert_run Hrun. subst w'.
    match goal with
    | H : read_required "name" _ _ = Ok _ |- _ =>
        apply (required_str_as_optional _ _ _ _ None) in H
    end.
    unfold FoodItemUpdate.validate. run_validate. replay_readers.
    reflexivity.
  - intros u s Hrun Hname. unfold FoodItemUpdate.validate in Hrun.
    revert Hrun; run_validate; intros Hrun; invert_run Hrun. subst w'.
    cbn [FoodItemUpdate.name] in Hname. subst.
    match goal with
    | H : read_default "name" _ _ _ = Ok (Some s) |- _ =>
        apply optional_str_as_required in H
    end.
    eexists. split.
    + unfold FoodItemCreate.validate. run_validate. replay_readers. reflexivity.
    + reflexivity.
Qed.

Lemma create_is_an_update_witness :
  FoodItemCreate.validate {[ "name" := VStr "Muesli" ]} counting_clock =
    (Ok (FoodItemCreate_only_name "Muesli"), counting_clock) /\
  FoodItemUpdate.validate {[ "name" := VStr "Muesli" ]} counting_clock =
    (Ok (FoodItemUpdate_of_create (FoodItemCreate_only_name "Muesli")),
     counting_clock).
Proof.
  split; [reflexivity|].
  apply (create_is_an_update {[ "name" := VStr "Muesli" ]} counting_clock
           counting_clock).
  reflexivity.
Defined.

(** X12.  An input BarcodeCreate accepts, with no [id] and no
    [created_at] in it, is accepted by Barcode: the row has the code, the
    type and the food item of the BarcodeCreate, no key yet, and the time of
    its creation. *)
Theorem barcode_of_its_create (data : gmap string PyVal) (w w' : World)
    (c : BarcodeCreate.t) :
  BarcodeCreate.validate data w = (Ok c, w') ->
  data !! "id" = None ->
  data !! "created_at" = None ->
  Barcode.validate data w = (Ok (Barcode_of_create c (now w)), tick w).
Proof.
  intros Hrun Hid Hcreated. unfold BarcodeCreate.validate in Hrun.
  revert Hrun; run_validate; intros Hrun; invert_run Hrun.
  unfold Barcode.validate. run_validate. replay_readers.
  rewrite !read_default_None by done. by rewrite Hcreated.
Qed.

Lemma barcode_of_its_create_witness :
  exists c,
    BarcodeCreate.validate
      {[ "code" := VStr "4006040000013"; "barcode_type" := VStr "EAN13";
         "food_item_id" := VInt 1 ]} counting_clock = (Ok c, counting_clock) /\
    Barcode.validate
      {[ "code" := VStr "4006040000013"; "barcode_type" := VStr "EAN13";
         "food_item_id" := VInt 1 ]} counting_clock =
      (Ok (Barcode.mk None "4006040000013" "EAN13" 1 0), tick counting_clock).
Proof.
  eexists. split; [reflexivity|].
  eapply (barcode_of_its_create _ counting_clock counting_clock
            (BarcodeCreate.mk "4006040000013" "EAN13" 1)); reflexivity.
Defined.

(** X13.  An input FoodItemCreate accepts, with no [id] and no timestamp
    in it, is accepted by FoodItem, and the row is the one built from the
    FoodItemCreate: the same attributes, no key yet, and the two timestamps
    read from the clock one after the other. *)
Theorem food_item_of_its_create (data : gmap string PyVal) (w w' : World)
    (c : FoodItemCreate.t) :
  FoodItemCreate.validate data w = (Ok c, w') ->
  data !! "id" = None ->
  data !! "created_at" = None ->
  data !! "updated_at" = None ->
  FoodItem.validate data w =
    (Ok (FoodItem_from_create c w).1, (FoodItem_from_create c w).2) /\
  FoodItem.created_at (FoodItem_from_create c w).1 = now w /\
  FoodItem.updated_at (FoodItem_from_create c w).1 = now (tick w).
Proof.
  intros Hrun Hid Hcreated Hupdated. unfold FoodItemCreate.validate in Hrun.
  revert Hrun; run_validate; intros Hrun; invert_run Hrun.
  split; [|done].
  unfold FoodItem.validate. run_validate. replay_readers.
  rewrite !read_default_None by done. by rewrite Hcreated, Hupdated.
Qed.

Lemma food_item_of_its_create_witness :
  FoodItemCreate.validate {[ "name" := VStr "Muesli" ]} counting_clock =
    (Ok (FoodItemCreate_only_name "Muesli"), counting_clock) /\
  exists f,
    FoodItem.validate {[ "name" := VStr "Muesli" ]} counting_clock =
      (Ok f, tick (tick counting_clock)) /\
    FoodItem.name f = "Muesli" /\
    FoodItem.created_at f = 0 /\ FoodItem.updated_at f = 1.
Proof.
  split; [reflexivity|].
  edestruct (food_item_of_its_create {[ "name" := VStr "Muesli" ]}
               counting_clock counting_clock (FoodItemCreate_only_name "Muesli"))
    as (Hrow & Hcreated & Hupdated); [reflexivity..|].
  eexists. split; [exact Hrow|]. split; [reflexivity|].
  split; [exact Hcreated | exact Hupdated].
Defined.

(** ** The clock and the timestamps *)

Ltac count_readings :=
  run_validate; cbn [snd]; unfold missing, ticks;
  cbn [List.filter FoodItem_timestamps Barcode_timestamps ScanHistory_timestamps
         ScanResult_timestamps];
  repeat (match goal with
          | |- context [?data !! ?k] =>
              is_var data; destruct (data !! k)
          end);
  reflexivity.

(** X14.  Validation reads the clock once for each timestamp the input does
    not give and never otherwise, whether the input is accepted or not; the
    classes without a timestamp never read it. *)
Theorem clock_read_once_per_missing_timestamp (data : gmap string PyVal) (w : World) :
  (FoodItem.validate data w).2 = ticks (missing data FoodItem_timestamps) w /\
  (Barcode.validate data w).2 = ticks (missing data Barcode_timestamps) w /\
  (ScanHistory.validate data w).2 = ticks (missing data ScanHistory_timestamps) w /\
  (NutritionProfile.validate data w).2 = ticks (missing data FoodItem_timestamps) w /\
  (ScanResult.validate data w).2 = ticks (missing data ScanResult_timestamps) w /\
  (FoodItemCreate.validate data w).2 = w /\
  (FoodItemUpdate.validate data w).2 = w /\
  (BarcodeCreate.validate data w).2 = w /\
  (NutritionSummary.validate data w).2 = w /\
  (HealthScore.validate data w).2 = w.
Proof.
  split_and!.
  - unfold FoodItem.validate. count_readings.
  - unfold Barcode.validate. count_readings.
  - unfold ScanHistory.validate. count_readings.
  - unfold NutritionProfile.validate. count_readings.
  - unfold ScanResult.validate. count_readings.
  - unfold FoodItemCreate.validate. by run_validate.
  - unfold FoodItemUpdate.validate. by run_validate.
  - unfold BarcodeCreate.validate. by run_validate.
  - unfold NutritionSummary.validate. by run_validate.
  - unfold HealthScore.validate. by run_validate.
Qed.

Lemma datetime_given_is_kept name d data t t' :
  read_default name check_datetime d data = Ok t' ->
  data !! name = Some (VDatetime t) -> t' = t.
Proof.
  unfold read_default. intros Hread Hv. rewrite Hv in Hread.
  by injection Hread as ->.
Qed.

Ltac timestamp_kept Hrun Hgiven :=
  revert Hrun; run_validate; intros Hrun; invert_run Hrun;
  eapply datetime_given_is_kept; [eassumption | exact Hgiven].

(** X15.  A datetime the input gives for a timestamp is kept: in an
    accepted FoodItem, Barcode, ScanHistory, NutritionProfile or ScanResult
    the timestamp attribute is the datetime given under its key, not a
    reading of the clock. *)
Theorem given_timestamp_kept (data : gmap string PyVal) (w w' : World)
    (t : datetime) :
  (forall f, FoodItem.validate data w = (Ok f, w') ->
     (data !! "created_at" = Some (VDatetime t) -> FoodItem.created_at f = t) /\
     (data !! "updated_at" = Some (VDatetime t) -> FoodItem.updated_at f = t)) /\
  (forall b, Barcode.validate data w = (Ok b, w') ->
     data !! "created_at" = Some (VDatetime t) -> Barcode.created_at b = t) /\
  (forall h, ScanHistory.validate data w = (Ok h, w') ->
     data !! "scan_timestamp" = Some (VDatetime t) ->
     ScanHistory.scan_timestamp h = t) /\
  (forall p, NutritionProfile.validate data w = (Ok p, w') ->
     (data !! "created_at" = Some (VDatetime t) ->
      NutritionProfile.created_at p = t) /\
     (data !! "updated_at" = Some (VDatetime t) ->
      NutritionProfile.updated_at p = t)) /\
  (forall r, ScanResult.validate data w = (Ok r, w') ->
     data !! "scan_timestamp" = Some (VDatetime t) ->
     ScanResult.scan_timestamp r = t).
Proof.
  split_and!.
  - intros f Hrun. unfold FoodItem.validate in Hrun.
    split; intros Hgiven; timestamp_kept Hrun Hgiven.
  - intros b Hrun Hgiven. unfold Barcode.validate in Hrun.
    timestamp_kept Hrun Hgiven.
  - intros h Hrun Hgiven. unfold ScanHistory.validate in Hrun.
    timestamp_kept Hrun Hgiven.
  - intros p Hrun. unfold NutritionProfile.validate in Hrun.
    split; intros Hgiven; timestamp_kept Hrun Hgiven.
  - intros r Hrun Hgiven. unfold ScanResult.validate in Hrun.
    timestamp_kept Hrun Hgiven.
Qed.

Lemma given_timestamp_kept_witness :
  exists b,
    Barcode.validate
      {[ "code" := VStr "4006040000013"; "barcode_type" := VStr "EAN13";
         "food_item_id" := VInt 1; "created_at" := VDatetime 42 ]}
      counting_clock = (Ok b, counting_clock) /\
    Barcode.created_at b = 42.
Proof.
  eexists. split; [reflexivity|].
  edestruct (given_timestamp_kept
               {[ "code" := VStr "4006040000013"; "barcode_type" := VStr "EAN13";
                  "food_item_id" := VInt 1; "created_at" := VDatetime 42 ]}
               counting_clock counting_clock 42)
    as (_ & Hbarcode & _).
  eapply Hbarcode; reflexivity.
Defined.

(** X16.  [None] is not a timestamp: given under the key of [created_at],
    [updated_at] or [scan_timestamp] it is reported as a value of the wrong
    type, and the default is not taken in its place (the clock is not read
    for that field). *)
Theorem none_is_no_timestamp (data : gmap string PyVal) (w : World) :
  (errors_at "created_at"
     (errors_of (FoodItem.validate (<["created_at" := VNone]> data) w).1) =
     [ {| loc := "created_at"; kind := WrongType |} ] /\
   (FoodItem.validate (<["created_at" := VNone]> data) w).2 =
     ticks (missing data ["updated_at"]) w) /\
  (errors_at "updated_at"
     (errors_of (FoodItem.validate (<["updated_at" := VNone]> data) w).1) =
     [ {| loc := "updated_at"; kind := WrongType |} ] /\
   (FoodItem.validate (<["updated_at" := VNone]> data) w).2 =
     ticks (missing data ["created_at"]) w) /\
  (errors_at "created_at"
     (errors_of (Barcode.validate (<["created_at" := VNone]> data) w).1) =
     [ {| loc := "created_at"; kind := WrongType |} ] /\
   (Barcode.validate (<["created_at" := VNone]> data) w).2 = w) /\
  (errors_at "scan_timestamp"
     (errors_of (ScanHistory.validate (<["scan_timestamp" := VNone]> data) w).1) =
     [ {| loc := "scan_timestamp"; kind := WrongType |} ] /\
   (ScanHistory.validate (<["scan_timestamp" := VNone]> data) w).2 = w) /\
  (errors_at "scan_timestamp"
     (errors_of (ScanResult.validate (<["scan_timestamp" := VNone]> data) w).1) =
     [ {| loc := "scan_timestamp"; kind := WrongType |} ] /\
   (ScanResult.validate (<["scan_timestamp" := VNone]> data) w).2 = w).
Proof.
  split_and!.
  - unfold FoodItem.validate; run_validate; cbn [fst]; errors_at_field.
    by rewrite read_default_insert_eq.
  - unfold FoodItem.validate; run_validate; cbn [snd].
    rewrite lookup_insert_eq, lookup_insert_ne by done.
    unfold missing, ticks. cbn [List.filter]. by destruct (data !! "updated_at").
  - unfold FoodItem.validate; run_validate; cbn [fst]; errors_at_field.
    by rewrite read_default_insert_eq.
  - unfold FoodItem.validate; run_validate; cbn [snd].
    rewrite lookup_insert_eq, lookup_insert_ne by done.
    unfold missing, ticks. cbn [List.filter]. by destruct (data !! "created_at").
  - unfold Barcode.validate; run_validate; cbn [fst]; errors_at_field.
    by rewrite read_default_insert_eq.
  - unfold Barcode.validate; run_validate; cbn [snd]. by rewrite lookup_insert_eq.
  - unfold ScanHistory.validate; run_validate; cbn [fst]; errors_at_field.
    by rewrite read_default_insert_eq.
  - unfold ScanHistory.validate; run_validate; cbn [snd]. by rewrite lookup_insert_eq.
  - unfold ScanResult.validate; run_validate; cbn [fst]; errors_at_field.
    by rewrite read_default_insert_eq.
  - unfold ScanResult.validate; run_validate; cbn [snd]. by rewrite lookup_insert_eq.
Qed.

(** ** [None], decimals and enumerations in the schemas *)

(** X17.  FoodItemCreate takes [None] for every attribute but [name],
    where it is a value of the wrong type; FoodItemUpdate takes [None] for
    every attribute, [name] included. *)
Theorem none_accepted_where_optional (data : gmap string PyVal) (w : World)
    (key : string) :
  (key <> "name" ->
   errors_at key
     (errors_of (FoodItemCreate.validate (<[key := VNone]> data) w).1) = []) /\
  errors_at "name"
    (errors_of (FoodItemCreate.validate (<["name" := VNone]> data) w).1) =
    [ {| loc := "name"; kind := WrongType |} ] /\
  errors_at key
    (errors_of (FoodItemUpdate.validate (<[key := VNone]> data) w).1) = [].
Proof.
  split_and!.
  - intros Hkey. unfold FoodItemCreate.validate. run_validate. cbn [fst].
    rewrite !errors_of_vap, !errors_at_app.
    rewrite ?errors_at_default_insert by (intros ->; reflexivity).
    rewrite ?errors_at_required_insert by done.
    reflexivity.
  - unfold FoodItemCreate.validate. run_validate. cbn [fst]. errors_at_field.
    unfold read_required. by rewrite lookup_insert_eq.
  - unfold FoodItemUpdate.validate. run_validate. cbn [fst].
    rewrite !errors_of_vap, !errors_at_app.
    rewrite ?errors_at_default_insert by (intros ->; reflexivity).
    reflexivity.
Qed.

Lemma none_accepted_where_optional_witness :
  "brand" <> "name" /\
  errors_at "brand"
    (errors_of (FoodItemCreate.validate
                  (<["brand" := VNone]> {[ "name" := VStr "Muesli" ]})
                  counting_clock).1) = [] /\
  is_ok (FoodItemCreate.validate
           (<["brand" := VNone]> {[ "name" := VStr "Muesli" ]})
           counting_clock).1 = true.
Proof.
  assert ("brand" <> "name") as Hkey by discriminate.
  split; [exact Hkey|]. split; [|reflexivity].
  exact (proj1 (none_accepted_where_optional {[ "name" := VStr "Muesli" ]}
                  counting_clock "brand") Hkey).
Defined.

Ltac decimal_or_unlisted Hname :=
  intros ->;
  first [ reflexivity
        | exfalso; cbn [In nutrient_fields NutritionSummary_fields] in Hname;
          intuition discriminate ].

Ltac decimal_no_error Hname :=
  run_validate; cbn [fst];
  rewrite !errors_of_vap, !errors_at_app;
  rewrite ?errors_at_default_insert by decimal_or_unlisted Hname;
  rewrite ?errors_at_required_insert by decimal_or_unlisted Hname;
  reflexivity.

Ltac decimal_keeps_valid Hname Hok :=
  run_validate; cbn [fst]; revert Hok; run_validate; cbn [fst];
  rewrite !is_ok_vap; intros Hok;
  repeat (apply andb_prop in Hok as [Hok ?]);
  repeat (apply andb_true_intro; split);
  first [ reflexivity
        | eapply is_ok_default_insert; [eassumption | decimal_or_unlisted Hname]
        | eapply is_ok_required_insert; [eassumption | decimal_or_unlisted Hname] ].

Ltac special_refused_in Hname :=
  run_validate; cbn [fst];
  rewrite !errors_of_vap, !errors_at_app;
  rewrite ?errors_at_default_set, ?errors_at_required_set;
  cbn [In nutrient_fields NutritionSummary_fields] in Hname;
  repeat (destruct Hname as [<-|Hname]); [..|destruct Hname];
  reflexivity.

(** X18.  FoodItemUpdate and NutritionSummary put no bound on their
    decimals either: whatever finite decimal is given for a nutrient
    attribute, no error is reported for it and an accepted input stays
    accepted; a decimal that is not finite is reported as such. *)
Theorem update_and_summary_unconstrained (d : Decimal) (s : DecimalSpecial)
    (name : string) (data : gmap string PyVal) (w : World) :
  (In name nutrient_fields ->
     errors_at name
       (errors_of (FoodItemUpdate.validate (<[name := VDecimal d]> data) w).1) = [] /\
     (is_ok (FoodItemUpdate.validate data w).1 = true ->
      is_ok (FoodItemUpdate.validate (<[name := VDecimal d]> data) w).1 = true) /\
     errors_at name
       (errors_of (FoodItemUpdate.validate (<[name := VDecimalSpecial s]> data) w).1) =
       [not_finite name]) /\
  (In name NutritionSummary_fields ->
     errors_at name
       (errors_of (NutritionSummary.validate (<[name := VDecimal d]> data) w).1) = [] /\
     (is_ok (NutritionSummary.validate data w).1 = true ->
      is_ok (NutritionSummary.validate (<[name := VDecimal d]> data) w).1 = true) /\
     errors_at name
       (errors_of (NutritionSummary.validate (<[name := VDecimalSpecial s]> data) w).1) =
       [not_finite name]).
Proof.
  split; intros Hname; split_and!.
  - unfold FoodItemUpdate.validate. decimal_no_error Hname.
  - intros Hok. unfold FoodItemUpdate.validate in *. decimal_keeps_valid Hname Hok.
  - unfold FoodItemUpdate.validate. special_refused_in Hname.
  - unfold NutritionSummary.validate. decimal_no_error Hname.
  - intros Hok. unfold NutritionSummary.validate in *. decimal_keeps_valid Hname Hok.
  - unfold NutritionSummary.validate. special_refused_in Hname.
Qed.

Lemma update_and_summary_unconstrained_witness :
  In "salt" NutritionSummary_fields /\
  is_ok (NutritionSummary.validate (<["salt" := VDecimal minus_five]> ∅)
           counting_clock).1 = true /\
  errors_at "salt"
    (errors_of (NutritionSummary.validate
                  (<["salt" := VDecimalSpecial (Infinity false)]> ∅)
                  counting_clock).1) = [not_finite "salt"].
Proof.
  assert (In "salt" NutritionSummary_fields) as Hname by (simpl; tauto).
  split; [exact Hname|].
  destruct (update_and_summary_unconstrained minus_five (Infinity false) "salt" ∅
              counting_clock) as [_ H].
  destruct (H Hname) as (_ & Hkeep & Hrefused).
  split; [apply Hkeep; reflexivity | exact Hrefused].
Defined.

(** ** Enumerations *)

(** X19.  A member of NutriScore or HealthAssessment is found again by its
    value and by nothing else: looking a string up gives the member exactly
    when the string is the member's value.  No value belongs to both
    enumerations. *)
Theorem enum_value_round_trip :
  (forall s n,
     enum_of_value NutriScore.value NutriScore.members s = Some n <->
     NutriScore.value n = s) /\
  (forall s h,
     enum_of_value HealthAssessment.value HealthAssessment.members s = Some h <->
     HealthAssessment.value h = s) /\
  (forall n h, NutriScore.value n <> HealthAssessment.value h).
Proof.
  split_and!.
  - intros s n. split.
    + intros Hfind. pose proof (enum_of_value_NutriScore s) as H.
      rewrite Hfind in H. exact H.
    + intros <-. by destruct n.
  - intros s h. split.
    + intros Hfind. pose proof (enum_of_value_HealthAssessment s) as H.
      rewrite Hfind in H. exact H.
    + intros <-. by destruct h.
  - intros n h. by destruct n, h.
Qed.

Lemma optional_NutriScore_report name d data v :
  data !! name = Some v ->
  optional_enum_report name NutriScore_values v
    (errors_of (read_default name (Optional check_NutriScore) d data)).
Proof.
  intros Hv. rewrite (read_default_Some _ _ _ _ _ Hv).
  pose proof (check_NutriScore_spec v) as Hs. split; intros Hok.
  - by destruct (enum_input_ok_dec_NutriScore v Hok) as [o ->].
  - destruct (Optional check_NutriScore v) as [e|[n|]]; simpl.
    + by destruct Hs as [-> _].
    + destruct Hok. right. exists (NutriScore.value n).
      split; [done | apply NutriScore_value_in].
    + destruct Hok. by left.
Qed.

Lemma optional_HealthAssessment_report name d data v :
  data !! name = Some v ->
  optional_enum_report name HealthAssessment_values v
    (errors_of (read_default name (Optional check_HealthAssessment) d data)).
Proof.
  intros Hv. rewrite (read_default_Some _ _ _ _ _ Hv).
  pose proof (check_HealthAssessment_spec v) as Hs. split; intros Hok.
  - by destruct (enum_input_ok_dec_HealthAssessment v Hok) as [o ->].
  - destruct (Optional check_HealthAssessment v) as [e|[n|]]; simpl.
    + by destruct Hs as [-> _].
    + destruct Hok. right. exists (HealthAssessment.value n).
      split; [done | apply HealthAssessment_value_in].
    + destruct Hok. by left.
Qed.

Ltac enum_report Hv :=
  run_validate; cbn [fst]; errors_at_field;
  first [ exact (optional_NutriScore_report _ _ _ _ Hv)
        | exact (optional_HealthAssessment_report _ _ _ _ Hv) ].

(** X20.  FoodItemCreate, FoodItemUpdate and ScanResult take for
    [nutri_score] and [health_assessment] what FoodItem takes: [None] or the
    value of a member; anything else is reported as an enum error for the
    field. *)
Theorem schema_enum_fields_closed (data : gmap string PyVal) (w : World) (v : PyVal) :
  (data !! "nutri_score" = Some v ->
   optional_enum_report "nutri_score" NutriScore_values v
     (errors_at "nutri_score" (errors_of (FoodItemCreate.validate data w).1)) /\
   optional_enum_report "nutri_score" NutriScore_values v
     (errors_at "nutri_score" (errors_of (FoodItemUpdate.validate data w).1)) /\
   optional_enum_report "nutri_score" NutriScore_values v
     (errors_at "nutri_score" (errors_of (ScanResult.validate data w).1))) /\
  (data !! "health_assessment" = Some v ->
   optional_enum_report "health_assessment" HealthAssessment_values v
     (errors_at "health_assessment" (errors_of (FoodItemCreate.validate data w).1)) /\
   optional_enum_report "health_assessment" HealthAssessment_values v
     (errors_at "health_assessment" (errors_of (FoodItemUpdate.validate data w).1)) /\
   optional_enum_report "health_assessment" HealthAssessment_values v
     (errors_at "health_assessment" (errors_of (ScanResult.validate data w).1))).
Proof.
  split; intros Hv; split_and!.
  all: first [ unfold FoodItemCreate.validate; enum_report Hv
             | unfold FoodItemUpdate.validate; enum_report Hv
             | unfold ScanResult.validate; enum_report Hv ].
Qed.

Lemma schema_enum_fields_closed_witness :
  ({[ "barcode" := VStr "5901234123457"; "found" := VBool true;
      "nutri_score" := VStr "a" ]} : gmap string PyVal) !! "nutri_score" =
    Some (VStr "a") /\
  ~ enum_input_ok NutriScore_values (VStr "a") /\
  errors_at "nutri_score"
    (errors_of (ScanResult.validate
                  {[ "barcode" := VStr "5901234123457"; "found" := VBool true;
                     "nutri_score" := VStr "a" ]} counting_clock).1) =
    [ {| loc := "nutri_score"; kind := EnumValue |} ].
Proof.
  assert (~ enum_input_ok NutriScore_values (VStr "a")) as Hbad.
  { intros [H|(s & [= <-] & Hin)]; [discriminate|].
    simpl in Hin. intuition discriminate. }
  split; [reflexivity|]. split; [exact Hbad|].
  edestruct (schema_enum_fields_closed
               {[ "barcode" := VStr "5901234123457"; "found" := VBool true;
                  "nutri_score" := VStr "a" ]} counting_clock (VStr "a"))
    as [Hscore _].
  edestruct Hscore as (_ & _ & [_ Hreject]); [reflexivity|].
  exact (Hreject Hbad).
Defined.

Lemma required_NutriScore_report name data v :
  data !! name = Some v ->
  required_enum_report name NutriScore_values v
    (errors_of (read_required name check_NutriScore data)).
Proof.
  intros Hv. rewrite (read_required_Some _ _ _ _ Hv).
  unfold check_NutriScore, check_enum. split.
  - intros (s & -> & Hin). pose proof (enum_of_value_NutriScore s) as H.
    by destruct (enum_of_value _ _ s).
  - intros Hbad. destruct v; try done.
    pose proof (enum_of_value_NutriScore s) as H.
    destruct (enum_of_value _ _ s) as [n|]; [|done].
    destruct Hbad. exists s. split; [done|]. subst s. apply NutriScore_value_in.
Qed.

Lemma required_HealthAssessment_report name data v :
  data !! name = Some v ->
  required_enum_report name HealthAssessment_values v
    (errors_of (read_required name check_HealthAssessment data)).
Proof.
  intros Hv. rewrite (read_required_Some _ _ _ _ Hv).
  unfold check_HealthAssessment, check_enum. split.
  - intros (s & -> & Hin). pose proof (enum_of_value_HealthAssessment s) as H.
    by destruct (enum_of_value _ _ s).
  - intros Hbad. destruct v; try done.
    pose proof (enum_of_value_HealthAssessment s) as H.
    destruct (enum_of_value _ _ s) as [n|]; [|done].
    destruct Hbad. exists s. split; [done|]. subst s.
    apply HealthAssessment_value_in.
Qed.

(** X21.  HealthScore needs both scores: for [nutri_score] and
    [health_assessment] only the value of a member passes; [None], which
    the other classes take, is reported as an enum error here. *)
Theorem health_score_needs_scores (data : gmap string PyVal) (w : World) (v : PyVal) :
  (data !! "nutri_score" = Some v ->
   required_enum_report "nutri_score" NutriScore_values v
     (errors_at "nutri_score" (errors_of (HealthScore.validate data w).1))) /\
  (data !! "health_assessment" = Some v ->
   required_enum_report "health_assessment" HealthAssessment_values v
     (errors_at "health_assessment" (errors_of (HealthScore.validate data w).1))) /\
  errors_at "nutri_score"
    (errors_of (HealthScore.validate (<["nutri_score" := VNone]> data) w).1) =
    [ {| loc := "nutri_score"; kind := EnumValue |} ] /\
  errors_at "health_assessment"
    (errors_of (HealthScore.validate (<["health_assessment" := VNone]> data) w).1) =
    [ {| loc := "health_assessment"; kind := EnumValue |} ].
Proof.
  split_and!.
  - intros Hv. unfold HealthScore.validate. run_validate. cbn [fst].
    errors_at_field. exact (required_NutriScore_report _ _ _ Hv).
  - intros Hv. unfold HealthScore.validate. run_validate. cbn [fst].
    errors_at_field. exact (required_HealthAssessment_report _ _ _ Hv).
  - unfold HealthScore.validate. run_validate. cbn [fst]. errors_at_field.
    unfold read_required. by rewrite lookup_insert_eq.
  - unfold HealthScore.validate. run_validate. cbn [fst]. errors_at_field.
    unfold read_required. by rewrite lookup_insert_eq.
Qed.

Lemma health_score_needs_scores_witness :
  ({[ "nutri_score" := VStr "B" ]} : gmap string PyVal) !! "nutri_score" =
    Some (VStr "B") /\
  errors_at "nutri_score"
    (errors_of (HealthScore.validate {[ "nutri_score" := VStr "B" ]}
                  counting_clock).1) = [].
Proof.
  split; [reflexivity|].
  edestruct (health_score_needs_scores {[ "nutri_score" := VStr "B" ]}
               counting_clock (VStr "B")) as [Hscore _].
  edestruct Hscore as [Hok _]; [reflexivity|].
  apply Hok. exists "B". split; [reflexivity | simpl; tauto].
Defined.

(** ** Accepted values *)

Lemma required_str_within name n data s :
  read_required name (check_str (Field_max_length n)) data = Ok s ->
  (String.length s <= n)%nat.
Proof.
  unfold read_required. destruct (data !! name) as [v|]; [|discriminate].
  destruct v; try discriminate. rewrite check_str_max.
  destruct (Nat.ltb_spec n (String.length s0)); [discriminate|].
  by intros [= <-].
Qed.

Lemma optional_str_within name n d data o :
  optional_within n d ->
  read_default name (Optional (check_str (Field_max_length n))) d data = Ok o ->
  optional_within n o.
Proof.
  intros Hd. unfold read_default. destruct (data !! name) as [v|].
  - destruct v; try discriminate; unfold Optional.
    + by intros [= <-].
    + rewrite check_str_max.
      destruct (Nat.ltb_spec n (String.length s)); [discriminate|].
      by intros [= <-].
  - by intros [= <-].
Qed.

Ltac within_limits Hrun :=
  revert Hrun; run_validate; intros Hrun; invert_run Hrun;
  repeat
    (match goal with
     | H : read_required _ (check_str (Field_max_length _)) _ = Ok _ |- _ =>
         apply required_str_within in H
     | H : read_default _ (Optional (check_str (Field_max_length _))) None _ = Ok _
       |- _ => apply (optional_str_within _ _ None) in H; [|exact I]
     end);
  split_and!; assumption.

(** X22.  What FoodItem, FoodItemCreate and FoodItemUpdate accept is within
    the declared limits: the name has at most 255 characters, the brand, if
    any, at most 255 and the description, if any, at most 1000. *)
Theorem accepted_food_item_within_limits (data : gmap string PyVal) (w w' : World) :
  (forall f, FoodItem.validate data w = (Ok f, w') ->
     (String.length (FoodItem.name f) <= 255)%nat /\
     optional_within 255 (FoodItem.brand f) /\
     optional_within 1000 (FoodItem.description f)) /\
  (forall c, FoodItemCreate.validate data w = (Ok c, w') ->
     FoodItemCreate_within_limits c) /\
  (forall u, FoodItemUpdate.validate data w = (Ok u, w') ->
     optional_within 255 (FoodItemUpdate.name u) /\
     optional_within 255 (FoodItemUpdate.brand u) /\
     optional_within 1000 (FoodItemUpdate.description u)).
Proof.
  split_and!.
  - intros f Hrun. unfold FoodItem.validate in Hrun. within_limits Hrun.
  - intros c Hrun. unfold FoodItemCreate.validate in Hrun.
    unfold FoodItemCreate_within_limits. within_limits Hrun.
  - intros u Hrun. unfold FoodItemUpdate.validate in Hrun. within_limits Hrun.
Qed.

Lemma accepted_food_item_within_limits_witness :
  FoodItemCreate.validate {[ "name" := VStr "Muesli" ]} counting_clock =
    (Ok (FoodItemCreate_only_name "Muesli"), counting_clock) /\
  FoodItemCreate_within_limits (FoodItemCreate_only_name "Muesli").
Proof.
  split; [reflexivity|].
  apply (accepted_food_item_within_limits {[ "name" := VStr "Muesli" ]}
           counting_clock counting_clock).
  reflexivity.
Defined.

(** X23.  What Barcode, BarcodeCreate, ScanHistory and NutritionProfile
    accept is within the declared limits: a code and a scanned barcode have
    at most 50 characters, a barcode type at most 20, a user agent at most
    500, an IP address at most 45, a profile name at most 100 and a profile
    description at most 500. *)
Theorem accepted_rows_within_limits (data : gmap string PyVal) (w w' : World) :
  (forall b, Barcode.validate data w = (Ok b, w') ->
     (String.length (Barcode.code b) <= 50)%nat /\
     (String.length (Barcode.barcode_type b) <= 20)%nat) /\
  (forall c, BarcodeCreate.validate data w = (Ok c, w') ->
     (String.length (BarcodeCreate.code c) <= 50)%nat /\
     (String.length (BarcodeCreate.barcode_type c) <= 20)%nat) /\
  (forall h, ScanHistory.validate data w = (Ok h, w') ->
     (String.length (ScanHistory.barcode_scanned h) <= 50)%nat /\
     optional_within 500 (ScanHistory.user_agent h) /\
     optional_within 45 (ScanHistory.ip_address h)) /\
  (forall p, NutritionProfile.validate data w = (Ok p, w') ->
     (String.length (NutritionProfile.name p) <= 100)%nat /\
     optional_within 500 (NutritionProfile.description p)).
Proof.
  split_and!.
  - intros b Hrun. unfold Barcode.validate in Hrun. within_limits Hrun.
  - intros c Hrun. unfold BarcodeCreate.validate in Hrun. within_limits Hrun.
  - intros h Hrun. unfold ScanHistory.validate in Hrun. within_limits Hrun.
  - intros p Hrun. unfold NutritionProfile.validate in Hrun. within_limits Hrun.
Qed.

Lemma accepted_rows_within_limits_witness :
  BarcodeCreate.validate
    {[ "code" := VStr "4006040000013"; "barcode_type" := VStr "EAN13";
       "food_item_id" := VInt 1 ]} counting_clock =
    (Ok (BarcodeCreate.mk "4006040000013" "EAN13" 1), counting_clock) /\
  (String.length "4006040000013" <= 50)%nat /\
  (String.length "EAN13" <= 20)%nat.
Proof.
  split; [reflexivity|].
  edestruct (accepted_rows_within_limits
               {[ "code" := VStr "4006040000013"; "barcode_type" := VStr "EAN13";
                  "food_item_id" := VInt 1 ]} counting_clock counting_clock)
    as (_ & Hcreate & _).
  apply (Hcreate (BarcodeCreate.mk "4006040000013" "EAN13" 1)). reflexivity.
Defined.

(** ** Dumping and validating again *)

Lemma all_str_dump (l : list string) : all_str (map VStr l) = Some l.
Proof. induction l as [|s l IH]; simpl; [done | by rewrite IH]. Qed.

Lemma check_optional_str_dump n o :
  optional_within n o ->
  Optional (check_str (Field_max_length n)) (dump_optional VStr o) = inr o.
Proof.
  destruct o as [s|]; [|done]. cbn [optional_within dump_optional]. intros Hlen.
  unfold Optional. rewrite check_str_max.
  destruct (Nat.ltb_spec n (String.length s)); [lia | done].
Qed.

Lemma check_optional_Decimal_dump o :
  Optional (check_Decimal Field) (dump_optional VDecimal o) = inr o.
Proof. by destruct o. Qed.

Lemma check_optional_NutriScore_dump o :
  Optional check_NutriScore
    (dump_optional (fun n => VStr (NutriScore.value n)) o) = inr o.
Proof. by destruct o as [[]|]. Qed.

Lemma check_optional_HealthAssessment_dump o :
  Optional check_HealthAssessment
    (dump_optional (fun h => VStr (HealthAssessment.value h)) o) = inr o.
Proof. by destruct o as [[]|]. Qed.

Lemma check_optional_list_dump o :
  Optional check_list_str (dump_optional dump_list_str o) = inr o.
Proof.
  destruct o as [l|]; [|done]. unfold Optional, dump_optional, dump_list_str.
  simpl. by rewrite all_str_dump.
Qed.

Lemma check_str_dump n s :
  (String.length s <= n)%nat -> check_str (Field_max_length n) (VStr s) = inr s.
Proof.
  intros Hlen. rewrite check_str_max.
  destruct (Nat.ltb_spec n (String.length s)); [lia | done].
Qed.

(** X24.  Round trip: validating the dump of a FoodItemCreate that is
    within the length limits gives the FoodItemCreate back, every attribute
    as it was and the decimals with their precision. *)
Theorem dump_validate_round_trip (c : FoodItemCreate.t) (w : World) :
  FoodItemCreate_within_limits c ->
  FoodItemCreate.validate (FoodItemCreate_dump c) w = (Ok c, w).
Proof.
  destruct c. unfold FoodItemCreate_within_limits.
  cbn [FoodItemCreate.name FoodItemCreate.brand FoodItemCreate.description].
  intros (Hname & Hbrand & Hdescription).
  unfold FoodItemCreate.validate. run_validate.
  erewrite (read_required_Some "name") by reflexivity.
  repeat (erewrite read_default_Some by reflexivity).
  cbn [snd FoodItemCreate.name FoodItemCreate.brand FoodItemCreate.description
       FoodItemCreate.energy_kj FoodItemCreate.energy_kcal FoodItemCreate.fat
       FoodItemCreate.saturated_fat FoodItemCreate.carbohydrates
       FoodItemCreate.sugars FoodItemCreate.fiber FoodItemCreate.protein
       FoodItemCreate.salt FoodItemCreate.sodium FoodItemCreate.nutri_score
       FoodItemCreate.health_assessment FoodItemCreate.ingredients
       FoodItemCreate.allergens FoodItemCreate.categories].
  rewrite (check_str_dump _ _ Hname).
  rewrite !check_optional_str_dump by assumption.
  rewrite !check_optional_Decimal_dump, check_optional_NutriScore_dump,
    check_optional_HealthAssessment_dump, !check_optional_list_dump.
  reflexivity.
Qed.

Lemma dump_validate_round_trip_witness :
  FoodItemCreate_within_limits cola /\
  FoodItemCreate.validate (FoodItemCreate_dump cola) counting_clock =
    (Ok cola, counting_clock).
Proof.
  assert (FoodItemCreate_within_limits cola) as Hcola
    by (unfold FoodItemCreate_within_limits, cola; simpl; lia).
  split; [exact Hcola|].
  exact (dump_validate_round_trip cola counting_clock Hcola).
Defined.
